(** * A retrieval-augmented-generation pipeline over the LlamaStack client

    Shallow embedding of [main.go]: the six calls [runRAGDemo] makes on the
    client are events of a small free monad, console writes are events too,
    and a run against a service is a chronological trace of both. *)

From Stdlib Require Import String Ascii List ZArith Lia Bool DecimalString Floats.
Import ListNotations.
Local Open Scope string_scope.
Local Open Scope Z_scope.

Set Implicit Arguments.

(** ** Go values *)

(** A Go [error] is identified with the text its [Error()] method returns;
    a [nil] error is [None] of [option error]. *)
Definition error : Type := string.

(** What a client method returns: the pair [(value, err)] of which the
    program reads [value] only after it has seen [err == nil]. *)
Inductive result (T : Type) : Type :=
| Ok (v : T)
| Err (err : error).
Arguments Err {T} err.

(** The line feed, and Go's interpreted string literals: inside double
    quotes a backslash followed by n is a line feed and a backslash followed
    by t a tab. Raw (backquoted) literals are written as they stand. *)
Definition LF : ascii := ascii_of_nat 10.
Definition TAB : ascii := ascii_of_nat 9.

Fixpoint lit (s : string) : string :=
  match s with
  | EmptyString => EmptyString
  | String "\" (String "n" rest) => String LF (lit rest)
  | String "\" (String "t" rest) => String TAB (lit rest)
  | String c rest => String c (lit rest)
  end.

(** [strconv.Itoa] on an [int]: the decimal digits, with a sign if negative. *)
Definition Itoa (n : Z) : string := NilZero.string_of_int (Z.to_int n).

(** ** Package [fmt] *)
Module fmt.

(** The operands the program hands to the formatting functions. *)
Inductive arg : Type :=
| Str (s : string)
| Int (n : Z)
| Float64 (f : float)
| Error (e : error).

(** One verb applied to one operand. The program formats strings with [%s],
    ints with [%d] and errors with [%v] when it builds a string; those are
    rendered as Go does. Floats are only ever written to the console
    (with a precision, [%.4f]), where the call is kept unrendered, so every
    other pairing is left as a marker carrying the verb. *)
Definition verb (v : ascii) (a : arg) : string :=
  match v, a with
  | "s"%char, Str s => s
  | "v"%char, Str s => s
  | "d"%char, Int n => Itoa n
  | "v"%char, Int n => Itoa n
  | "v"%char, Error e => e
  | "s"%char, Error e => e
  | _, _ => String "%" (String "!" (String v "(BADVERB)"))
  end.

(** [fmt.Sprintf]: copy the format, replacing each percent-verb by the next
    operand; a verb with no operand left prints Go's MISSING marker. *)
Fixpoint Sprintf (format : string) (args : list arg) : string :=
  match format with
  | EmptyString => EmptyString
  | String "%" (String v rest) =>
      match args with
      | a :: args' => verb v a ++ Sprintf rest args'
      | [] => String "%" (String "!" (String v "(MISSING)")) ++ Sprintf rest []
      end
  | String c rest => String c (Sprintf rest args)
  end.

(** [fmt.Errorf]: an error whose text is the formatted string. *)
Definition Errorf (format : string) (args : list arg) : error :=
  Sprintf format args.

(** A write to standard output, kept as the call that made it. *)
Inductive output : Type :=
| Println (s : string)
| Printf (format : string) (args : list arg).

End fmt.

(** ** Package [strings]: the builder the prompt is assembled in *)
Module strings.
Module Builder.
Definition t : Type := string.
Definition empty : t := EmptyString.
Definition WriteString (b : t) (s : string) : t := b ++ s.
Definition String (b : t) : string := b.
End Builder.
End strings.

(** ** The client library's types

    The library itself is an external dependency; a struct is given the
    fields the program sets or reads, under the names it uses. *)

(** [param.Opt]: an optional request field, set by [String] and [Int]. *)
Module llamastackclient.
Definition Opt (T : Type) : Type := option T.
Definition String (s : string) : Opt string := Some s.
Definition Int (n : Z) : Opt Z := Some n.

(** What [NewFile(reader, filename, contentType)] wraps: the bytes the reader
    yields and the two names. *)
Record NamedFile : Type := NewFile {
  Reader : string;
  Filename : string;
  ContentType : string
}.

(** The purpose tag of an upload; the program uses this constant only. *)
Inductive FileNewParamsPurpose : Type :=
| FileNewParamsPurposeAssistants.
End llamastackclient.

Module VectorStoreNewParams.
Record t : Type := mk { Name : llamastackclient.Opt string }.
End VectorStoreNewParams.

Module FileNewParams.
Record t : Type := mk {
  File : llamastackclient.NamedFile;
  Purpose : llamastackclient.FileNewParamsPurpose
}.
End FileNewParams.

Module VectorStoreFileNewParams.
Record t : Type := mk { FileID : string }.
End VectorStoreFileNewParams.

Module VectorStoreSearchParamsQueryUnion.
Record t : Type := mk { OfString : llamastackclient.Opt string }.
End VectorStoreSearchParamsQueryUnion.

Module VectorStoreSearchParams.
Record t : Type := mk {
  Query : VectorStoreSearchParamsQueryUnion.t;
  MaxNumResults : llamastackclient.Opt Z
}.
End VectorStoreSearchParams.

(** A request message is a union of which the program fills one member:
    the system message or the user message, each with string content. *)
Module ChatCompletionNewParamsMessageUnion.
Record content : Type := mkContent { OfString : llamastackclient.Opt string }.
Inductive t : Type :=
| OfSystem (Content : content)
| OfUser (Content : content).
End ChatCompletionNewParamsMessageUnion.

Module ChatCompletionNewParams.
Record t : Type := mk {
  Messages : list ChatCompletionNewParamsMessageUnion.t;
  Model : string;
  MaxTokens : llamastackclient.Opt Z
}.
End ChatCompletionNewParams.

(** Responses. *)
Module VectorStore.
Record t : Type := mk { ID : string; Name : string }.
End VectorStore.

Module File.
Record t : Type := mk { ID : string; Filename : string }.
End File.

(** The attach call's payload; the program discards it. *)
Module VectorStoreFile.
Record t : Type := mk { ID : string }.
End VectorStoreFile.

(** Modelled from the spec: the library's declaration of a search hit is not
    part of the sources; the spec's data model gives a hit as a text content
    and a floating-point relevance score, which is how the program formats
    them ([%s] and [%.4f]). *)
Module VectorStoreSearchResponseData.
Record t : Type := mk { Content : string; Score : float }.
End VectorStoreSearchResponseData.

Module VectorStoreSearchResponse.
Record t : Type := mk { Data : list VectorStoreSearchResponseData.t }.
End VectorStoreSearchResponse.

Module Model.
Record t : Type := mk { Identifier : string; ModelType : string }.
End Model.

(** The completion response and its first-choice message are unions the
    program reads through the accessors [AsOpenAIChatCompletion] and
    [AsAssistant]; each union is represented by what its accessor returns.
    [Choices] is a slice the program tests against [nil] before its length:
    [None] is the nil slice. An absent string is Go's zero value, the empty
    string. *)
Module AssistantMessage.
Record content : Type := mkContent { OfString : string }.
Record t : Type := mk { Content : content }.
End AssistantMessage.

Module ChoiceMessageUnion.
Record t : Type := mk { AsAssistant : AssistantMessage.t }.
End ChoiceMessageUnion.

Module Choice.
Record t : Type := mk { Message : ChoiceMessageUnion.t }.
End Choice.

Module OpenAIChatCompletion.
Record t : Type := mk { Choices : option (list Choice.t) }.
End OpenAIChatCompletion.

Module ChatCompletionNewResponseUnion.
Record t : Type := mk { AsOpenAIChatCompletion : OpenAIChatCompletion.t }.
End ChatCompletionNewResponseUnion.

(** ** Calls on the client, and programs that make them *)

(** The six client methods [runRAGDemo] calls, with their arguments (the
    context argument is always [context.Background()] and is left out). *)
Inductive request : Type :=
| VectorStores_New (params : VectorStoreNewParams.t)
| Files_New (params : FileNewParams.t)
| VectorStores_Files_New (vectorStoreID : string) (params : VectorStoreFileNewParams.t)
| VectorStores_Search (vectorStoreID : string) (params : VectorStoreSearchParams.t)
| Models_List
| Chat_Completions_New (params : ChatCompletionNewParams.t).

(** What each method returns. *)
Definition response_of (q : request) : Type :=
  match q with
  | VectorStores_New _ => result VectorStore.t
  | Files_New _ => result File.t
  | VectorStores_Files_New _ _ => result VectorStoreFile.t
  | VectorStores_Search _ _ => result VectorStoreSearchResponse.t
  | Models_List => result (list Model.t)
  | Chat_Completions_New _ => result ChatCompletionNewResponseUnion.t
  end.

(** The same answers in one type, for the trace of a run. *)
Inductive response : Type :=
| VectorStoreR (r : result VectorStore.t)
| FileR (r : result File.t)
| VectorStoreFileR (r : result VectorStoreFile.t)
| SearchR (r : result VectorStoreSearchResponse.t)
| ModelsR (r : result (list Model.t))
| ChatR (r : result ChatCompletionNewResponseUnion.t).

Definition answer (q : request) : response_of q -> response :=
  match q with
  | VectorStores_New _ => VectorStoreR
  | Files_New _ => FileR
  | VectorStores_Files_New _ _ => VectorStoreFileR
  | VectorStores_Search _ _ => SearchR
  | Models_List => ModelsR
  | Chat_Completions_New _ => ChatR
  end.

(** A program: returns, calls the client and goes on with the answer, or
    writes to the console and goes on. *)
Inductive Prog (R : Type) : Type :=
| Ret (r : R)
| Call (q : request) (k : response_of q -> Prog R)
| Out (o : fmt.output) (k : Prog R).
Arguments Ret {R} r.
Arguments Call {R} q k.
Arguments Out {R} o k.

Fixpoint bind {A B : Type} (p : Prog A) (f : A -> Prog B) : Prog B :=
  match p with
  | Ret a => f a
  | Call q k => Call q (fun r => bind (k r) f)
  | Out o k => Out o (bind k f)
  end.

Definition call (q : request) : Prog (response_of q) := Call q (fun r => Ret r).
Definition Println (s : string) : Prog unit := Out (fmt.Println s) (Ret tt).
Definition Printf (format : string) (args : list fmt.arg) : Prog unit :=
  Out (fmt.Printf format args) (Ret tt).

Declare Scope prog_scope.
Delimit Scope prog_scope with prog.
Notation "x <- c ;; k" := (bind c (fun x => k))
  (at level 61, c at next level, right associativity) : prog_scope.
Notation "c ;; k" := (bind c (fun _ => k))
  (at level 61, right associativity) : prog_scope.
Local Open Scope prog_scope.

(** [for i, x := range l { body }], for a body that has effects ... *)
Fixpoint forRange {A : Type} (body : Z -> A -> Prog unit) (i : Z) (l : list A) : Prog unit :=
  match l with
  | [] => Ret tt
  | x :: l' => body i x ;; forRange body (i + 1) l'
  end.

(** ... and for a body that updates a local variable. *)
Fixpoint foldRange {A St : Type} (body : Z -> A -> St -> St) (i : Z) (l : list A) (st : St) : St :=
  match l with
  | [] => st
  | x :: l' => foldRange body (i + 1) l' (body i x st)
  end.

(** ** [main.go] *)

(** The sample document, a raw string literal: its first two paragraphs end
    in a blank and are followed by a line holding one tab. *)
Definition sampleContent : string :=
"Artificial Intelligence (AI) is a branch of computer science that aims to create intelligent machines that work and react like humans. 
	
Machine Learning is a subset of AI that enables computers to learn and improve from experience without being explicitly programmed. 
	
Deep Learning is a subset of machine learning that uses neural networks with multiple layers to model and understand complex patterns in data.

Natural Language Processing (NLP) is a field of AI that focuses on the interaction between computers and human language, enabling machines to understand, interpret, and generate human language.

Computer Vision is another AI field that enables computers to interpret and understand visual information from the world, such as images and videos.

These technologies are transforming industries like healthcare, finance, transportation, and entertainment by automating tasks, improving decision-making, and creating new capabilities.".

Definition query : string :=
  "What is machine learning and how does it relate to AI?".

(** The loop that writes the retrieved chunks to the console. *)
Definition printChunk (i : Z) (result : VectorStoreSearchResponseData.t) : Prog unit :=
  Printf (lit "\n--- Chunk %d ---\n") [fmt.Int (i + 1)] ;;
  Printf (lit "Content: %s\n") [fmt.Str (VectorStoreSearchResponseData.Content result)] ;;
  Printf (lit "Score: %.4f\n") [fmt.Float64 (VectorStoreSearchResponseData.Score result)].

(** The prompt: the header, one numbered line per chunk, the question. *)
Definition writeChunk (i : Z) (result : VectorStoreSearchResponseData.t)
    (contextBuilder : strings.Builder.t) : strings.Builder.t :=
  strings.Builder.WriteString contextBuilder
    (fmt.Sprintf (lit "%d. %s\n")
       [fmt.Int (i + 1); fmt.Str (VectorStoreSearchResponseData.Content result)]).

Definition buildContext (Data : list VectorStoreSearchResponseData.t) : strings.Builder.t :=
  let contextBuilder := strings.Builder.empty in
  let contextBuilder :=
    strings.Builder.WriteString contextBuilder (lit "Based on the following information:\n\n") in
  let contextBuilder := foldRange writeChunk 0 Data contextBuilder in
  strings.Builder.WriteString contextBuilder (lit "\nPlease answer the question: " ++ query).

(** The model selection loop: [llmModel] starts as the empty string and takes
    the identifier of the first model of type llm, where the loop breaks. *)
Fixpoint selectLLM (models : list Model.t) (llmModel : string) : string :=
  match models with
  | [] => llmModel
  | model :: rest =>
      if (Model.ModelType model =? "llm")%string
      then Model.Identifier model
      else selectLLM rest llmModel
  end.

Definition systemPrompt : string :=
  "You are a helpful AI assistant. Use the provided context to answer questions accurately and concisely.".

Definition chatParams (contextBuilder : strings.Builder.t) (llmModel : string)
    : ChatCompletionNewParams.t :=
  ChatCompletionNewParams.mk
    [ ChatCompletionNewParamsMessageUnion.OfSystem
        (ChatCompletionNewParamsMessageUnion.mkContent
           (llamastackclient.String systemPrompt));
      ChatCompletionNewParamsMessageUnion.OfUser
        (ChatCompletionNewParamsMessageUnion.mkContent
           (llamastackclient.String (strings.Builder.String contextBuilder))) ]
    llmModel
    (llamastackclient.Int 300).

(** Display the generated answer. *)
Definition displayAnswer (response : ChatCompletionNewResponseUnion.t) : Prog unit :=
  let openAIResponse := ChatCompletionNewResponseUnion.AsOpenAIChatCompletion response in
  match OpenAIChatCompletion.Choices openAIResponse with
  | None => Ret tt
  | Some [] => Ret tt
  | Some (choice :: _) =>
      let message := Choice.Message choice in
      let assistantMessage := ChoiceMessageUnion.AsAssistant message in
      let text := AssistantMessage.OfString (AssistantMessage.Content assistantMessage) in
      if (text =? "")%string then Ret tt
      else Printf (lit "\nEnhanced Answer:\n%s\n") [fmt.Str text]
  end.

(** [runRAGDemo]: the pipeline. It returns the error, [None] for [nil]. *)
Definition runRAGDemo : Prog (option error) :=
  (* Step 1: create a vector store *)
  Println "=== Step 1: Creating Vector Store ===" ;;
  r <- call (VectorStores_New
               (VectorStoreNewParams.mk (llamastackclient.String "my-rag-store"))) ;;
  match r with
  | Err err => Ret (Some (fmt.Errorf "error creating vector store: %v" [fmt.Error err]))
  | Ok vectorStore =>
  Printf (lit "Created vector store: %s (ID: %s)\n")
    [fmt.Str (VectorStore.Name vectorStore); fmt.Str (VectorStore.ID vectorStore)] ;;
  (* Step 2: upload a sample text file to the Files service *)
  Println (lit "\n=== Step 2: Uploading Sample File ===") ;;
  let fileReader := sampleContent in
  r <- call (Files_New
               (FileNewParams.mk
                  (llamastackclient.NewFile fileReader "ai_concepts.txt" "text/plain")
                  llamastackclient.FileNewParamsPurposeAssistants)) ;;
  match r with
  | Err err => Ret (Some (fmt.Errorf "error uploading file: %v" [fmt.Error err]))
  | Ok file =>
  Printf (lit "Uploaded file: %s (ID: %s)\n")
    [fmt.Str (File.Filename file); fmt.Str (File.ID file)] ;;
  (* Step 3: attach the file to the vector store *)
  Println (lit "\n=== Step 3: Attaching File to Vector Store ===") ;;
  r <- call (VectorStores_Files_New (VectorStore.ID vectorStore)
               (VectorStoreFileNewParams.mk (File.ID file))) ;;
  match r with
  | Err err =>
      Ret (Some (fmt.Errorf "error attaching file to vector store: %v" [fmt.Error err]))
  | Ok _ =>
  Printf (lit "File attached to vector store successfully\n") [] ;;
  Println "Waiting for file processing to complete..." ;;
  (* Step 4: run a query against the vector store *)
  Println (lit "\n=== Step 4: Running RAG Query ===") ;;
  Printf (lit "Query: %s\n") [fmt.Str query] ;;
  r <- call (VectorStores_Search (VectorStore.ID vectorStore)
               (VectorStoreSearchParams.mk
                  (VectorStoreSearchParamsQueryUnion.mk (llamastackclient.String query))
                  (llamastackclient.Int 3))) ;;
  match r with
  | Err err => Ret (Some (fmt.Errorf "error searching vector store: %v" [fmt.Error err]))
  | Ok searchResults =>
  let Data := VectorStoreSearchResponse.Data searchResults in
  Printf (lit "\nFound %d relevant chunks:\n") [fmt.Int (Z.of_nat (length Data))] ;;
  forRange printChunk 0 Data ;;
  (* Step 5: use the retrieved context to generate a better answer *)
  Println (lit "\n=== Step 5: Generating Enhanced Answer ===") ;;
  let contextBuilder := buildContext Data in
  r <- call Models_List ;;
  match r with
  | Err err => Ret (Some (fmt.Errorf "error fetching models: %v" [fmt.Error err]))
  | Ok models =>
  let llmModel := selectLLM models "" in
  if (llmModel =? "")%string
  then Ret (Some (fmt.Errorf "no LLM model available for generation" []))
  else
  r <- call (Chat_Completions_New (chatParams contextBuilder llmModel)) ;;
  match r with
  | Err err => Ret (Some (fmt.Errorf "error generating answer: %v" [fmt.Error err]))
  | Ok response =>
  displayAnswer response ;;
  Ret None
  end end end end end end.

(** [main], after the client has been built for the local instance. *)
Definition main : Prog unit :=
  Println (lit "=== LlamaStack RAG Demo ===\n") ;;
  err <- runRAGDemo ;;
  match err with
  | Some err => Printf (lit "RAG Demo failed: %v\n") [fmt.Error err]
  | None => Println (lit "\n=== Demo Complete! ===")
  end.

(** ** Running a program against a service *)

(** The platform behind the client: any state, and an answer to each call
    that may depend on the call and on everything that happened before. *)
Record Service : Type := {
  world : Type;
  serve : forall q : request, world -> response_of q * world
}.

(** What a run leaves behind, in the order it happened. *)
Inductive event : Type :=
| Called (q : request) (r : response)
| Printed (o : fmt.output).

Fixpoint run (svc : Service) (R : Type) (p : Prog R) (w : world svc)
    : list event * R * world svc :=
  match p with
  | Ret r => ([], r, w)
  | Call q k =>
      let (a, w') := serve svc q w in
      let '(tr, r, w'') := run svc (k a) w' in
      (Called q (answer q a) :: tr, r, w'')
  | Out o k =>
      let '(tr, r, w') := run svc k w in
      (Printed o :: tr, r, w')
  end.

Definition trace (svc : Service) (R : Type) (p : Prog R) (w : world svc) : list event :=
  fst (fst (run svc p w)).

Definition outcome (svc : Service) (R : Type) (p : Prog R) (w : world svc) : R :=
  snd (fst (run svc p w)).

(** The projections of a trace the claims speak of. *)
Fixpoint calls (tr : list event) : list request :=
  match tr with
  | [] => []
  | Called q _ :: tr' => q :: calls tr'
  | Printed _ :: tr' => calls tr'
  end.

Fixpoint responses (tr : list event) : list response :=
  match tr with
  | [] => []
  | Called _ r :: tr' => r :: responses tr'
  | Printed _ :: tr' => responses tr'
  end.

Fixpoint console (tr : list event) : list fmt.output :=
  match tr with
  | [] => []
  | Called _ _ :: tr' => console tr'
  | Printed o :: tr' => o :: console tr'
  end.

(** What a program writes before its first call: all of its output, when it
    makes no call. *)
Fixpoint prints (R : Type) (p : Prog R) : list fmt.output :=
  match p with
  | Ret _ => []
  | Call _ _ => []
  | Out o k => o :: prints k
  end.

Fixpoint quiet (R : Type) (p : Prog R) : Prop :=
  match p with
  | Ret _ => True
  | Call _ _ => False
  | Out _ k => quiet k
  end.

(** ** The courses a run can take

    The six requests, as functions of the answers they are built from. *)
Definition createStore : request :=
  VectorStores_New (VectorStoreNewParams.mk (Some "my-rag-store")).

Definition uploadFile : request :=
  Files_New
    (FileNewParams.mk
       (llamastackclient.NewFile sampleContent "ai_concepts.txt" "text/plain")
       llamastackclient.FileNewParamsPurposeAssistants).

Definition attachFile (vectorStore : VectorStore.t) (file : File.t) : request :=
  VectorStores_Files_New (VectorStore.ID vectorStore)
    (VectorStoreFileNewParams.mk (File.ID file)).

Definition searchStore (vectorStore : VectorStore.t) : request :=
  VectorStores_Search (VectorStore.ID vectorStore)
    (VectorStoreSearchParams.mk (VectorStoreSearchParamsQueryUnion.mk (Some query)) (Some 3)).

Definition chatCompletion (searchResults : VectorStoreSearchResponse.t)
    (models : list Model.t) : request :=
  Chat_Completions_New
    (chatParams (buildContext (VectorStoreSearchResponse.Data searchResults))
       (selectLLM models "")).

(** The stretch of trace each step contributes, given the answer it gets. *)
Definition step1 (r : result VectorStore.t) : list event :=
  [ Printed (fmt.Println "=== Step 1: Creating Vector Store ===");
    Called createStore (VectorStoreR r) ].

Definition step2 (vectorStore : VectorStore.t) (r : result File.t) : list event :=
  [ Printed (fmt.Printf (lit "Created vector store: %s (ID: %s)\n")
               [fmt.Str (VectorStore.Name vectorStore); fmt.Str (VectorStore.ID vectorStore)]);
    Printed (fmt.Println (lit "\n=== Step 2: Uploading Sample File ==="));
    Called uploadFile (FileR r) ].

Definition step3 (vectorStore : VectorStore.t) (file : File.t)
    (r : result VectorStoreFile.t) : list event :=
  [ Printed (fmt.Printf (lit "Uploaded file: %s (ID: %s)\n")
               [fmt.Str (File.Filename file); fmt.Str (File.ID file)]);
    Printed (fmt.Println (lit "\n=== Step 3: Attaching File to Vector Store ==="));
    Called (attachFile vectorStore file) (VectorStoreFileR r) ].

Definition waiting : list fmt.output :=
  [ fmt.Printf (lit "File attached to vector store successfully\n") [];
    fmt.Println "Waiting for file processing to complete...";
    fmt.Println (lit "\n=== Step 4: Running RAG Query ===");
    fmt.Printf (lit "Query: %s\n") [fmt.Str query] ].

Definition step4 (vectorStore : VectorStore.t)
    (r : result VectorStoreSearchResponse.t) : list event :=
  map Printed waiting ++ [ Called (searchStore vectorStore) (SearchR r) ].

Definition step5 (searchResults : VectorStoreSearchResponse.t)
    (r : result (list Model.t)) : list event :=
  let Data := VectorStoreSearchResponse.Data searchResults in
  Printed (fmt.Printf (lit "\nFound %d relevant chunks:\n") [fmt.Int (Z.of_nat (length Data))])
  :: map Printed (prints (forRange printChunk 0 Data))
  ++ [ Printed (fmt.Println (lit "\n=== Step 5: Generating Enhanced Answer ==="));
       Called Models_List (ModelsR r) ].

Definition step6 (searchResults : VectorStoreSearchResponse.t) (models : list Model.t)
    (r : result ChatCompletionNewResponseUnion.t) : list event :=
  [ Called (chatCompletion searchResults models) (ChatR r) ].

Definition shown (response : ChatCompletionNewResponseUnion.t) : list event :=
  map Printed (prints (displayAnswer response)).

(** A course: how far the run got, with the answers received on the way. *)
Inductive course : Type :=
| Stop1 (err : error)
| Stop2 (vectorStore : VectorStore.t) (err : error)
| Stop3 (vectorStore : VectorStore.t) (file : File.t) (err : error)
| Stop4 (vectorStore : VectorStore.t) (file : File.t) (attached : VectorStoreFile.t)
    (err : error)
| Stop5 (vectorStore : VectorStore.t) (file : File.t) (attached : VectorStoreFile.t)
    (searchResults : VectorStoreSearchResponse.t) (err : error)
| NoLLM (vectorStore : VectorStore.t) (file : File.t) (attached : VectorStoreFile.t)
    (searchResults : VectorStoreSearchResponse.t) (models : list Model.t)
| Stop6 (vectorStore : VectorStore.t) (file : File.t) (attached : VectorStoreFile.t)
    (searchResults : VectorStoreSearchResponse.t) (models : list Model.t) (err : error)
| Finished (vectorStore : VectorStore.t) (file : File.t) (attached : VectorStoreFile.t)
    (searchResults : VectorStoreSearchResponse.t) (models : list Model.t)
    (response : ChatCompletionNewResponseUnion.t).

Definition upto4 (vs : VectorStore.t) (f : File.t) (a : VectorStoreFile.t)
    (r : result VectorStoreSearchResponse.t) : list event :=
  step1 (Ok vs) ++ step2 vs (Ok f) ++ step3 vs f (Ok a) ++ step4 vs r.

Definition course_trace (c : course) : list event :=
  match c with
  | Stop1 e => step1 (Err e)
  | Stop2 vs e => step1 (Ok vs) ++ step2 vs (Err e)
  | Stop3 vs f e => step1 (Ok vs) ++ step2 vs (Ok f) ++ step3 vs f (Err e)
  | Stop4 vs f a e => upto4 vs f a (Err e)
  | Stop5 vs f a sr e => upto4 vs f a (Ok sr) ++ step5 sr (Err e)
  | NoLLM vs f a sr ms => upto4 vs f a (Ok sr) ++ step5 sr (Ok ms)
  | Stop6 vs f a sr ms e => upto4 vs f a (Ok sr) ++ step5 sr (Ok ms) ++ step6 sr ms (Err e)
  | Finished vs f a sr ms resp =>
      upto4 vs f a (Ok sr) ++ step5 sr (Ok ms) ++ step6 sr ms (Ok resp) ++ shown resp
  end.

Definition course_outcome (c : course) : option error :=
  match c with
  | Stop1 e => Some ("error creating vector store: " ++ e)
  | Stop2 _ e => Some ("error uploading file: " ++ e)
  | Stop3 _ _ e => Some ("error attaching file to vector store: " ++ e)
  | Stop4 _ _ _ e => Some ("error searching vector store: " ++ e)
  | Stop5 _ _ _ _ e => Some ("error fetching models: " ++ e)
  | NoLLM _ _ _ _ _ => Some "no LLM model available for generation"
  | Stop6 _ _ _ _ _ e => Some ("error generating answer: " ++ e)
  | Finished _ _ _ _ _ _ => None
  end.

(** Which courses occur: the chat completion is reached exactly when the
    selection loop leaves a non-empty identifier. *)
Definition admissible (c : course) : Prop :=
  match c with
  | NoLLM _ _ _ _ ms => selectLLM ms "" = ""
  | Stop6 _ _ _ _ ms _ | Finished _ _ _ _ ms _ => selectLLM ms "" <> ""
  | _ => True
  end.

(** ** Mock services *)

(** A mock that gives each method one fixed answer. *)
Record Mock : Type := {
  mockStore : result VectorStore.t;
  mockFile : result File.t;
  mockAttach : result VectorStoreFile.t;
  mockSearch : result VectorStoreSearchResponse.t;
  mockModels : result (list Model.t);
  mockChat : result ChatCompletionNewResponseUnion.t
}.

Definition mockAnswer (m : Mock) (q : request) : response_of q :=
  match q with
  | VectorStores_New _ => mockStore m
  | Files_New _ => mockFile m
  | VectorStores_Files_New _ _ => mockAttach m
  | VectorStores_Search _ _ => mockSearch m
  | Models_List => mockModels m
  | Chat_Completions_New _ => mockChat m
  end.

Definition mock (m : Mock) : Service :=
  {| world := unit; serve := fun q w => (mockAnswer m q, w) |}.

(** ** Vocabulary of the properties *)

(** The six steps, by the method they call. *)
Inductive method : Type :=
| StoreCreate | FileUpload | Attach | Search | ListModels | ChatCompletion.

Definition method_of (q : request) : method :=
  match q with
  | VectorStores_New _ => StoreCreate
  | Files_New _ => FileUpload
  | VectorStores_Files_New _ _ => Attach
  | VectorStores_Search _ _ => Search
  | Models_List => ListModels
  | Chat_Completions_New _ => ChatCompletion
  end.

Definition pipeline : list method :=
  [StoreCreate; FileUpload; Attach; Search; ListModels; ChatCompletion].

(** The error a call came back with, if it failed. *)
Definition error_of (T : Type) (r : result T) : option error :=
  match r with
  | Ok _ => None
  | Err e => Some e
  end.

Definition failure (r : response) : option error :=
  match r with
  | VectorStoreR r => error_of r
  | FileR r => error_of r
  | VectorStoreFileR r => error_of r
  | SearchR r => error_of r
  | ModelsR r => error_of r
  | ChatR r => error_of r
  end.

Definition succeeded (r : response) : Prop := failure r = None.

(** The fixed prefix of the error reported when step [k] fails. *)
Definition stepPrefix (k : nat) : string :=
  match k with
  | 1%nat => "error creating vector store"
  | 2%nat => "error uploading file"
  | 3%nat => "error attaching file to vector store"
  | 4%nat => "error searching vector store"
  | 5%nat => "error fetching models"
  | 6%nat => "error generating answer"
  | _ => ""
  end.

Definition contains (sub s : string) : Prop :=
  exists before after, s = (before ++ sub ++ after)%string.

(** The first model of type llm, in list order. *)
Definition firstLLM (models : list Model.t) : option Model.t :=
  find (fun model => (Model.ModelType model =? "llm")%string) models.

(** The first choice of a completion, and the text [AsAssistant] finds in a
    choice's message. *)
Definition firstChoice (response : ChatCompletionNewResponseUnion.t) : option Choice.t :=
  match OpenAIChatCompletion.Choices
          (ChatCompletionNewResponseUnion.AsOpenAIChatCompletion response) with
  | Some (choice :: _) => Some choice
  | _ => None
  end.

Definition assistantText (choice : Choice.t) : string :=
  AssistantMessage.OfString
    (AssistantMessage.Content (ChoiceMessageUnion.AsAssistant (Choice.Message choice))).

(** The answer line on the console: the write made with the answer's format. *)
Definition answerLine (text : string) : fmt.output :=
  fmt.Printf (lit "\nEnhanced Answer:\n%s\n") [fmt.Str text].

Definition isAnswerLine (o : fmt.output) : bool :=
  match o with
  | fmt.Printf format _ => (format =? lit "\nEnhanced Answer:\n%s\n")%string
  | fmt.Println _ => false
  end.

(** The numbered line of the prompt for the chunk at (zero-based) index [i]. *)
Definition numberedLine (i : nat) (result : VectorStoreSearchResponseData.t) : string :=
  (Itoa (Z.of_nat i + 1) ++ ". " ++ VectorStoreSearchResponseData.Content result
   ++ String LF "")%string.

Definition promptHeader : string := lit "Based on the following information:\n\n".
Definition promptQuestion : string := (lit "\nPlease answer the question: " ++ query)%string.

(** Sample answers for the mocks. *)
Definition sampleStore : VectorStore.t := VectorStore.mk "vs_123" "my-rag-store".
Definition sampleFile : File.t := File.mk "file_456" "ai_concepts.txt".
Definition sampleAttached : VectorStoreFile.t := VectorStoreFile.mk "file_456".
Definition sampleHits : VectorStoreSearchResponse.t :=
  VectorStoreSearchResponse.mk
    [ VectorStoreSearchResponseData.mk "Machine Learning is a subset of AI" 0.75%float;
      VectorStoreSearchResponseData.mk "Deep Learning uses neural networks" 0.5%float ].
Definition embeddingModel : Model.t := Model.mk "all-MiniLM-L6-v2" "embedding".
Definition llamaModel : Model.t := Model.mk "llama3.2:3b" "llm".
Definition unnamedLLM : Model.t := Model.mk "" "llm".

Definition completionWith (text : string) : ChatCompletionNewResponseUnion.t :=
  ChatCompletionNewResponseUnion.mk
    (OpenAIChatCompletion.mk
       (Some [ Choice.mk (ChoiceMessageUnion.mk
                 (AssistantMessage.mk (AssistantMessage.mkContent text))) ])).

(** A mock that succeeds at every step ... *)
Definition happyMock : Mock := {|
  mockStore := Ok sampleStore;
  mockFile := Ok sampleFile;
  mockAttach := Ok sampleAttached;
  mockSearch := Ok sampleHits;
  mockModels := Ok [embeddingModel; llamaModel];
  mockChat := Ok (completionWith "Machine learning is a subset of AI.")
|}.

(** ... and variants of it: another model list, another completion, and a
    failure at step [k]. *)
Definition withModels (models : list Model.t) (m : Mock) : Mock := {|
  mockStore := mockStore m;
  mockFile := mockFile m;
  mockAttach := mockAttach m;
  mockSearch := mockSearch m;
  mockModels := Ok models;
  mockChat := mockChat m
|}.

Definition withChat (response : ChatCompletionNewResponseUnion.t) (m : Mock) : Mock := {|
  mockStore := mockStore m;
  mockFile := mockFile m;
  mockAttach := mockAttach m;
  mockSearch := mockSearch m;
  mockModels := mockModels m;
  mockChat := Ok response
|}.

Definition failingAt (k : nat) (e : error) (m : Mock) : Mock := {|
  mockStore := if (k =? 1)%nat then Err e else mockStore m;
  mockFile := if (k =? 2)%nat then Err e else mockFile m;
  mockAttach := if (k =? 3)%nat then Err e else mockAttach m;
  mockSearch := if (k =? 4)%nat then Err e else mockSearch m;
  mockModels := if (k =? 5)%nat then Err e else mockModels m;
  mockChat := if (k =? 6)%nat then Err e else mockChat m
|}.

(** The calls and the answers of a course, in order. *)
Definition course_calls (c : course) : list request :=
  match c with
  | Stop1 _ => [createStore]
  | Stop2 _ _ => [createStore; uploadFile]
  | Stop3 vs f _ => [createStore; uploadFile; attachFile vs f]
  | Stop4 vs f _ _ => [createStore; uploadFile; attachFile vs f; searchStore vs]
  | Stop5 vs f _ _ _ | NoLLM vs f _ _ _ =>
      [createStore; uploadFile; attachFile vs f; searchStore vs; Models_List]
  | Stop6 vs f _ sr ms _ | Finished vs f _ sr ms _ =>
      [createStore; uploadFile; attachFile vs f; searchStore vs; Models_List;
       chatCompletion sr ms]
  end.

Definition course_responses (c : course) : list response :=
  match c with
  | Stop1 e => [VectorStoreR (Err e)]
  | Stop2 vs e => [VectorStoreR (Ok vs); FileR (Err e)]
  | Stop3 vs f e => [VectorStoreR (Ok vs); FileR (Ok f); VectorStoreFileR (Err e)]
  | Stop4 vs f a e =>
      [VectorStoreR (Ok vs); FileR (Ok f); VectorStoreFileR (Ok a); SearchR (Err e)]
  | Stop5 vs f a sr e =>
      [VectorStoreR (Ok vs); FileR (Ok f); VectorStoreFileR (Ok a); SearchR (Ok sr);
       ModelsR (Err e)]
  | NoLLM vs f a sr ms =>
      [VectorStoreR (Ok vs); FileR (Ok f); VectorStoreFileR (Ok a); SearchR (Ok sr);
       ModelsR (Ok ms)]
  | Stop6 vs f a sr ms e =>
      [VectorStoreR (Ok vs); FileR (Ok f); VectorStoreFileR (Ok a); SearchR (Ok sr);
       ModelsR (Ok ms); ChatR (Err e)]
  | Finished vs f a sr ms resp =>
      [VectorStoreR (Ok vs); FileR (Ok f); VectorStoreFileR (Ok a); SearchR (Ok sr);
       ModelsR (Ok ms); ChatR (Ok resp)]
  end.

(** Lines put one after the other, and the numbered lines for the chunks
    from index [i] on. *)
Definition join (lines : list string) : string := fold_right String.append ""%string lines.

Fixpoint numberedLines (i : nat) (Data : list VectorStoreSearchResponseData.t) : list string :=
  match Data with
  | [] => []
  | result :: rest => numberedLine i result :: numberedLines (S i) rest
  end.

(** ** Vocabulary of the further properties *)

(** What [main] writes around the pipeline: the banner before it, and after
    it the failure report or the completion line. *)
Definition banner : fmt.output := fmt.Println (lit "=== LlamaStack RAG Demo ===\n").

Definition completeLine : fmt.output := fmt.Println (lit "\n=== Demo Complete! ===").

Definition failureReport (err : error) : fmt.output :=
  fmt.Printf (lit "RAG Demo failed: %v\n") [fmt.Error err].

Definition closing (err : option error) : fmt.output :=
  match err with
  | Some err => failureReport err
  | None => completeLine
  end.

(** The header line the pipeline writes when it enters step [k]. *)
Definition stepHeader (k : nat) : string :=
  match k with
  | 1%nat => "=== Step 1: Creating Vector Store ==="
  | 2%nat => lit "\n=== Step 2: Uploading Sample File ==="
  | 3%nat => lit "\n=== Step 3: Attaching File to Vector Store ==="
  | 4%nat => lit "\n=== Step 4: Running RAG Query ==="
  | 5%nat => lit "\n=== Step 5: Generating Enhanced Answer ==="
  | _ => ""
  end.

(** [o] is the line [s] written with [Println]. *)
Definition printsLine (s : string) (o : fmt.output) : bool :=
  match o with
  | fmt.Println t => (t =? s)%string
  | fmt.Printf _ _ => false
  end.

(** The three console writes for the chunk at (zero-based) index [i]. *)
Definition chunkLines (i : nat) (result : VectorStoreSearchResponseData.t) : list fmt.output :=
  [ fmt.Printf (lit "\n--- Chunk %d ---\n") [fmt.Int (Z.of_nat i + 1)];
    fmt.Printf (lit "Content: %s\n") [fmt.Str (VectorStoreSearchResponseData.Content result)];
    fmt.Printf (lit "Score: %.4f\n") [fmt.Float64 (VectorStoreSearchResponseData.Score result)] ].

Definition foundLine (n : nat) : fmt.output :=
  fmt.Printf (lit "\nFound %d relevant chunks:\n") [fmt.Int (Z.of_nat n)].

(** More sample answers: hits with the contents of [sampleHits] and other
    scores. *)
Definition rescoredHits : VectorStoreSearchResponse.t :=
  VectorStoreSearchResponse.mk
    [ VectorStoreSearchResponseData.mk "Machine Learning is a subset of AI" 0.125%float;
      VectorStoreSearchResponseData.mk "Deep Learning uses neural networks" 0.0625%float ].

(** ** Strings *)

Unset Implicit Arguments.

Lemma append_nil_r (s : string) : (s ++ "")%string = s.
Proof.
  induction s as [| c s IH]; simpl; [reflexivity | now rewrite IH].
Qed.

Lemma append_assoc (s t u : string) : ((s ++ t) ++ u = s ++ (t ++ u))%string.
Proof.
  induction s as [| c s IH]; simpl; [reflexivity | now rewrite IH].
Qed.

(** The sample document has the 947 bytes of the source literal. *)
Example sampleContent_length : String.length sampleContent = 947%nat.
Proof. reflexivity. Qed.

(** ** Running: general facts *)

Lemma run_bind (svc : Service) (A B : Type) (p : Prog A) (f : A -> Prog B) (w : world svc) :
  run svc (bind p f) w =
  let '(tr1, a, w1) := run svc p w in
  let '(tr2, b, w2) := run svc (f a) w1 in
  ((tr1 ++ tr2)%list, b, w2).
Proof.
  revert w. induction p as [a | q k IH | o k IH]; intros w; simpl.
  - destruct (run svc (f a) w) as [[tr2 b] w2]. reflexivity.
  - destruct (serve svc q w) as [x w']. rewrite IH.
    destruct (run svc (k x) w') as [[tr1 a] w1].
    destruct (run svc (f a) w1) as [[tr2 b] w2]. reflexivity.
  - rewrite IH. destruct (run svc k w) as [[tr1 a] w1].
    destruct (run svc (f a) w1) as [[tr2 b] w2]. reflexivity.
Qed.

Lemma run_quiet (svc : Service) (p : Prog unit) (w : world svc) :
  quiet p -> run svc p w = (map Printed (prints p), tt, w).
Proof.
  induction p as [[] | q k IH | o k IH]; simpl; intros Hq.
  - reflexivity.
  - contradiction.
  - rewrite (IH Hq). reflexivity.
Qed.

Lemma quiet_printChunks (i : Z) (Data : list VectorStoreSearchResponseData.t) :
  quiet (forRange printChunk i Data).
Proof.
  revert i. induction Data as [| d Data IH]; intros i; simpl.
  - exact I.
  - apply IH.
Qed.

Lemma quiet_displayAnswer (response : ChatCompletionNewResponseUnion.t) :
  quiet (displayAnswer response).
Proof.
  unfold displayAnswer.
  destruct (OpenAIChatCompletion.Choices _) as [[| choice rest] |]; simpl; auto.
  destruct (_ =? _)%string; simpl; exact I.
Qed.

(** Every run of the pipeline follows one of the courses. *)
Ltac go_on := cbn [bind run call Println Printf].
Ltac answered :=
  match goal with
  | |- context [serve ?svc ?q ?w] => destruct (serve svc q w) as [[? | ?err] ?w]
  end; go_on.
Ltac same_trace := cbn; unfold shown; rewrite ?app_nil_r, <- ?app_assoc; reflexivity.
Ltac same_error := cbn; rewrite ?append_nil_r; reflexivity.
Ltac stops c := exists c; split; [exact I | split; [same_trace | same_error]].

Lemma run_course (svc : Service) (w : world svc) :
  exists c, admissible c
    /\ trace svc runRAGDemo w = course_trace c
    /\ outcome svc runRAGDemo w = course_outcome c.
Proof.
  unfold trace, outcome, runRAGDemo. go_on.
  answered; [rename v into vs | stops (Stop1 err)].
  answered; [rename v into f | stops (Stop2 vs err)].
  answered; [rename v into a | stops (Stop3 vs f err)].
  answered; [rename v into sr | stops (Stop4 vs f a err)].
  rewrite run_bind, run_quiet by apply quiet_printChunks. go_on.
  answered; [rename v into ms | stops (Stop5 vs f a sr err)].
  destruct (selectLLM ms "" =? "")%string eqn:Hsel; go_on.
  - apply String.eqb_eq in Hsel. exists (NoLLM vs f a sr ms).
    split; [exact Hsel | split; [same_trace | same_error]].
  - apply String.eqb_neq in Hsel.
    answered; [rename v into resp | ].
    + rewrite run_bind, run_quiet by apply quiet_displayAnswer. go_on.
      exists (Finished vs f a sr ms resp).
      split; [exact Hsel | split; [same_trace | same_error]].
    + exists (Stop6 vs f a sr ms err).
      split; [exact Hsel | split; [same_trace | same_error]].
Qed.

(** ** Traces of courses *)

Local Open Scope list_scope.

Lemma calls_app (tr1 tr2 : list event) : calls (tr1 ++ tr2) = calls tr1 ++ calls tr2.
Proof.
  induction tr1 as [| [q r | o] tr1 IH]; simpl; [reflexivity | now rewrite IH | exact IH].
Qed.

Lemma responses_app (tr1 tr2 : list event) :
  responses (tr1 ++ tr2) = responses tr1 ++ responses tr2.
Proof.
  induction tr1 as [| [q r | o] tr1 IH]; simpl; [reflexivity | now rewrite IH | exact IH].
Qed.

Lemma console_app (tr1 tr2 : list event) :
  console (tr1 ++ tr2) = console tr1 ++ console tr2.
Proof.
  induction tr1 as [| [q r | o] tr1 IH]; simpl; [reflexivity | exact IH | now rewrite IH].
Qed.

Lemma calls_Printed (os : list fmt.output) : calls (map Printed os) = [].
Proof. induction os as [| o os IH]; simpl; [reflexivity | exact IH]. Qed.

Lemma responses_Printed (os : list fmt.output) : responses (map Printed os) = [].
Proof. induction os as [| o os IH]; simpl; [reflexivity | exact IH]. Qed.

Lemma console_Printed (os : list fmt.output) : console (map Printed os) = os.
Proof. induction os as [| o os IH]; simpl; [reflexivity | now rewrite IH]. Qed.

Create Rewrite HintDb traces.
#[local] Hint Rewrite calls_app responses_app console_app
  calls_Printed responses_Printed console_Printed app_nil_r : traces.

Ltac project :=
  unfold course_trace, upto4, step1, step2, step3, step4, step5, step6, shown;
  autorewrite with traces; cbn [calls responses console app map waiting];
  autorewrite with traces.

Lemma calls_course (c : course) : calls (course_trace c) = course_calls c.
Proof. destruct c; project; reflexivity. Qed.

Lemma responses_course (c : course) : responses (course_trace c) = course_responses c.
Proof. destruct c; project; reflexivity. Qed.

(** A run, read as its course. *)
Lemma run_as_course (svc : Service) (w : world svc) :
  exists c, admissible c
    /\ trace svc runRAGDemo w = course_trace c
    /\ calls (trace svc runRAGDemo w) = course_calls c
    /\ responses (trace svc runRAGDemo w) = course_responses c
    /\ outcome svc runRAGDemo w = course_outcome c.
Proof.
  destruct (run_course svc w) as (c & Hc & Htr & Hout).
  exists c. rewrite Htr, calls_course, responses_course. auto.
Qed.

Ltac by_course c :=
  destruct c as [e | vs e | vs f e | vs f a e | vs f a sr e
                | vs f a sr ms | vs f a sr ms e | vs f a sr ms resp].

Ltac found := vm_compute; repeat first [left; reflexivity | right].

(** ** The selection loop *)

Lemma selectLLM_firstLLM (models : list Model.t) (llmModel : string) :
  selectLLM models llmModel =
  match firstLLM models with
  | Some model => Model.Identifier model
  | None => llmModel
  end.
Proof.
  unfold firstLLM. induction models as [| model rest IH]; simpl.
  - reflexivity.
  - destruct (Model.ModelType model =? "llm")%string; [reflexivity | exact IH].
Qed.

Lemma firstLLM_none (models : list Model.t) :
  (forall model, In model models -> Model.ModelType model <> "llm") ->
  firstLLM models = None.
Proof.
  unfold firstLLM. induction models as [| model rest IH]; simpl; intros H.
  - reflexivity.
  - destruct (Model.ModelType model =? "llm")%string eqn:E.
    + apply String.eqb_eq in E. elim (H model); auto.
    + apply IH. intros m Hm. apply H. auto.
Qed.

(** ** The order of the calls *)

(** C1, as stated, fails: with a mock that succeeds at every call it gets
    and lists an embedding model only, every answer is a success and the run
    makes five calls, the chat completion not among them. *)
Lemma all_succeed_without_completion :
  Forall succeeded (responses (trace (mock (withModels [embeddingModel] happyMock)) runRAGDemo tt))
  /\ map method_of (calls (trace (mock (withModels [embeddingModel] happyMock)) runRAGDemo tt))
     = [StoreCreate; FileUpload; Attach; Search; ListModels]
  /\ map method_of (calls (trace (mock (withModels [embeddingModel] happyMock)) runRAGDemo tt))
     <> pipeline.
Proof.
  vm_compute. split; [repeat constructor | split; [reflexivity | discriminate]].
Qed.

(** C1 (amended): in every run in which each call succeeds and the model list
    has a first llm entry with a non-empty identifier, the pipeline makes
    exactly the six calls, one per step and in the fixed order; the attach
    call carries the store id answered at step 1 and the file id answered at
    step 2, the search call the store id answered at step 1, and the run
    returns no error. *)
Theorem six_calls_in_order (svc : Service) (w : world svc) :
  Forall succeeded (responses (trace svc runRAGDemo w)) ->
  (forall models, In (ModelsR (Ok models)) (responses (trace svc runRAGDemo w)) ->
     exists model, firstLLM models = Some model /\ Model.Identifier model <> "") ->
  exists vs f a sr ms resp,
    responses (trace svc runRAGDemo w)
    = [VectorStoreR (Ok vs); FileR (Ok f); VectorStoreFileR (Ok a); SearchR (Ok sr);
       ModelsR (Ok ms); ChatR (Ok resp)]
    /\ map method_of (calls (trace svc runRAGDemo w)) = pipeline
    /\ calls (trace svc runRAGDemo w)
       = [ createStore;
           uploadFile;
           VectorStores_Files_New (VectorStore.ID vs) (VectorStoreFileNewParams.mk (File.ID f));
           VectorStores_Search (VectorStore.ID vs)
             (VectorStoreSearchParams.mk
                (VectorStoreSearchParamsQueryUnion.mk (Some query)) (Some 3));
           Models_List;
           chatCompletion sr ms ]
    /\ outcome svc runRAGDemo w = None.
Proof.
  destruct (run_as_course svc w) as (c & Hc & _ & Hcalls & Hresp & Hout).
  rewrite Hcalls, Hresp, Hout. clear Hcalls Hresp Hout. intros Hall Hllm.
  by_course c; simpl in Hall, Hc, Hllm;
    repeat match goal with
           | H : Forall _ (_ :: _) |- _ => inversion_clear H
           end;
    try match goal with
        | H : succeeded _ |- _ => discriminate H
        end.
  - (* the list names no usable model: excluded by the hypothesis *)
    destruct (Hllm ms) as (m & Hm & Hid); [tauto | ].
    rewrite selectLLM_firstLLM, Hm in Hc. contradiction.
  - exists vs, f, a, sr, ms, resp.
    repeat split.
Qed.

Lemma six_calls_in_order_witness :
  exists vs f a sr ms resp,
    responses (trace (mock happyMock) runRAGDemo tt)
    = [VectorStoreR (Ok vs); FileR (Ok f); VectorStoreFileR (Ok a); SearchR (Ok sr);
       ModelsR (Ok ms); ChatR (Ok resp)]
    /\ map method_of (calls (trace (mock happyMock) runRAGDemo tt)) = pipeline
    /\ calls (trace (mock happyMock) runRAGDemo tt)
       = [ createStore;
           uploadFile;
           VectorStores_Files_New (VectorStore.ID vs) (VectorStoreFileNewParams.mk (File.ID f));
           VectorStores_Search (VectorStore.ID vs)
             (VectorStoreSearchParams.mk
                (VectorStoreSearchParamsQueryUnion.mk (Some query)) (Some 3));
           Models_List;
           chatCompletion sr ms ]
    /\ outcome (mock happyMock) runRAGDemo tt = None.
Proof.
  apply (six_calls_in_order (mock happyMock) tt).
  - vm_compute. repeat constructor.
  - intros models H. vm_compute in H.
    repeat (destruct H as [H | H]; try discriminate H); try contradiction.
    injection H as <-. exists llamaModel. split; [reflexivity | discriminate].
Defined.

(** ** Failures *)

(** C2: if the call of step [k] (the [k]-th call, for [k] from 1 to 6) fails
    with error [err], the run makes exactly the calls of steps 1 to [k] and
    returns the error whose text is the step's prefix, a colon, and the text
    of [err]; in particular the text contains the prefix. *)
Theorem failure_stops_the_run (svc : Service) (w : world svc)
    (k : nat) (r : response) (err : error) :
  (1 <= k <= 6)%nat ->
  nth_error (responses (trace svc runRAGDemo w)) (k - 1) = Some r ->
  failure r = Some err ->
  map method_of (calls (trace svc runRAGDemo w)) = firstn k pipeline
  /\ outcome svc runRAGDemo w = Some (stepPrefix k ++ ": " ++ err)%string
  /\ contains (stepPrefix k) (stepPrefix k ++ ": " ++ err)%string.
Proof.
  destruct (run_as_course svc w) as (c & _ & _ & Hcalls & Hresp & Hout).
  rewrite Hcalls, Hresp, Hout. clear Hcalls Hresp Hout. intros Hk Hnth Hfail.
  assert (Hin : contains (stepPrefix k) (stepPrefix k ++ ": " ++ err)%string).
  { exists ""%string, (": " ++ err)%string. reflexivity. }
  by_course c;
    destruct k as [| [| [| [| [| [| [| k]]]]]]]; try lia;
    simpl in Hnth; try discriminate Hnth;
    injection Hnth as <-; simpl in Hfail; try discriminate Hfail;
    injection Hfail as <-; repeat split; exact Hin.
Qed.

Lemma failure_stops_the_run_witness :
  map method_of (calls (trace (mock (failingAt 3 "connection refused" happyMock)) runRAGDemo tt))
  = [StoreCreate; FileUpload; Attach]
  /\ outcome (mock (failingAt 3 "connection refused" happyMock)) runRAGDemo tt
     = Some "error attaching file to vector store: connection refused"
  /\ contains "error attaching file to vector store"
       "error attaching file to vector store: connection refused".
Proof.
  apply (failure_stops_the_run (mock (failingAt 3 "connection refused" happyMock)) tt
           3%nat (VectorStoreFileR (Err "connection refused")) "connection refused").
  - lia.
  - reflexivity.
  - reflexivity.
Defined.

(** ** The prompt *)

Lemma Sprintf_numbered (n : Z) (content : string) :
  fmt.Sprintf (lit "%d. %s\n") [fmt.Int n; fmt.Str content]
  = (Itoa n ++ ". " ++ content ++ String LF "")%string.
Proof. reflexivity. Qed.

Lemma foldRange_writeChunk (Data : list VectorStoreSearchResponseData.t) (i : nat)
    (contextBuilder : strings.Builder.t) :
  foldRange writeChunk (Z.of_nat i) Data contextBuilder
  = (contextBuilder ++ join (numberedLines i Data))%string.
Proof.
  revert i contextBuilder. induction Data as [| result rest IH]; intros i b; simpl.
  - now rewrite append_nil_r.
  - replace (Z.of_nat i + 1) with (Z.of_nat (S i)) by lia.
    rewrite IH. unfold writeChunk, strings.Builder.WriteString.
    rewrite Sprintf_numbered, append_assoc.
    unfold numberedLine. replace (Z.of_nat (S i)) with (Z.of_nat i + 1) by lia.
    reflexivity.
Qed.

Lemma buildContext_lines (Data : list VectorStoreSearchResponseData.t) :
  buildContext Data
  = (lit "Based on the following information:\n\n"
     ++ join (numberedLines 0 Data)
     ++ lit "\nPlease answer the question: " ++ query)%string.
Proof.
  unfold buildContext, strings.Builder.empty.
  change 0 with (Z.of_nat 0). rewrite foldRange_writeChunk.
  unfold strings.Builder.WriteString. rewrite append_assoc. reflexivity.
Qed.

Lemma length_numberedLines (Data : list VectorStoreSearchResponseData.t) (i : nat) :
  length (numberedLines i Data) = length Data.
Proof.
  revert i. induction Data as [| result rest IH]; intros i; simpl; [reflexivity | now rewrite IH].
Qed.

Lemma nth_error_numberedLines (Data : list VectorStoreSearchResponseData.t)
    (i j : nat) (result : VectorStoreSearchResponseData.t) :
  nth_error Data j = Some result ->
  nth_error (numberedLines i Data) j = Some (numberedLine (i + j) result).
Proof.
  revert i j. induction Data as [| d rest IH]; intros i [| j]; simpl; try discriminate.
  - intros [= ->]. now rewrite Nat.add_0_r.
  - intros H. rewrite (IH (S i) j H). f_equal. f_equal. lia.
Qed.

(** C3: whenever the chat completion is requested, its messages are the
    system instruction and one user message; for the [N] search results
    answered at step 4 the user message is the fixed header, then exactly [N]
    lines of which line [i] (counted from 1) is the number [i], a dot, a
    blank, the content of the [i]-th result and a line feed, then the
    lead-in of the question and the literal query. *)
Theorem prompt_numbers_the_chunks (svc : Service) (w : world svc)
    (searchResults : VectorStoreSearchResponse.t) (params : ChatCompletionNewParams.t) :
  In (SearchR (Ok searchResults)) (responses (trace svc runRAGDemo w)) ->
  In (Chat_Completions_New params) (calls (trace svc runRAGDemo w)) ->
  exists lines : list string,
    ChatCompletionNewParams.Messages params
    = [ ChatCompletionNewParamsMessageUnion.OfSystem
          (ChatCompletionNewParamsMessageUnion.mkContent (Some systemPrompt));
        ChatCompletionNewParamsMessageUnion.OfUser
          (ChatCompletionNewParamsMessageUnion.mkContent
             (Some (lit "Based on the following information:\n\n"
                    ++ join lines
                    ++ lit "\nPlease answer the question: " ++ query)%string)) ]
    /\ length lines = length (VectorStoreSearchResponse.Data searchResults)
    /\ forall (i : nat) (result : VectorStoreSearchResponseData.t),
         nth_error (VectorStoreSearchResponse.Data searchResults) i = Some result ->
         nth_error lines i
         = Some (Itoa (Z.of_nat i + 1) ++ ". "
                 ++ VectorStoreSearchResponseData.Content result ++ String LF "")%string.
Proof.
  destruct (run_as_course svc w) as (c & _ & _ & Hcalls & Hresp & _).
  rewrite Hcalls, Hresp. clear Hcalls Hresp. intros Hsr Hchat.
  exists (numberedLines 0 (VectorStoreSearchResponse.Data searchResults)).
  split; [ | split].
  - by_course c; simpl in Hsr, Hchat;
      repeat (destruct Hchat as [Hchat | Hchat]; try discriminate Hchat);
      try contradiction;
      repeat (destruct Hsr as [Hsr | Hsr]; try discriminate Hsr);
      try contradiction;
      injection Hsr as ->; unfold chatCompletion in Hchat; injection Hchat as <-;
      unfold chatParams; cbn [ChatCompletionNewParams.Messages];
      unfold strings.Builder.String, llamastackclient.String;
      rewrite buildContext_lines; reflexivity.
  - apply length_numberedLines.
  - intros i result H. apply (nth_error_numberedLines _ 0%nat i result H).
Qed.

Lemma prompt_numbers_the_chunks_witness :
  exists lines : list string,
    ChatCompletionNewParams.Messages
      (chatParams (buildContext (VectorStoreSearchResponse.Data sampleHits)) "llama3.2:3b")
    = [ ChatCompletionNewParamsMessageUnion.OfSystem
          (ChatCompletionNewParamsMessageUnion.mkContent (Some systemPrompt));
        ChatCompletionNewParamsMessageUnion.OfUser
          (ChatCompletionNewParamsMessageUnion.mkContent
             (Some (lit "Based on the following information:\n\n"
                    ++ join lines
                    ++ lit "\nPlease answer the question: " ++ query)%string)) ]
    /\ length lines = length (VectorStoreSearchResponse.Data sampleHits)
    /\ forall (i : nat) (result : VectorStoreSearchResponseData.t),
         nth_error (VectorStoreSearchResponse.Data sampleHits) i = Some result ->
         nth_error lines i
         = Some (Itoa (Z.of_nat i + 1) ++ ". "
                 ++ VectorStoreSearchResponseData.Content result ++ String LF "")%string.
Proof.
  apply (prompt_numbers_the_chunks (mock happyMock) tt).
  - found.
  - found.
Defined.

(** The prompt for the two sample chunks, and for no chunk at all. *)
Example prompt_of_two_chunks :
  buildContext (VectorStoreSearchResponse.Data sampleHits)
  = lit ("Based on the following information:\n\n"
         ++ "1. Machine Learning is a subset of AI\n"
         ++ "2. Deep Learning uses neural networks\n"
         ++ "\nPlease answer the question: "
         ++ "What is machine learning and how does it relate to AI?").
Proof. reflexivity. Qed.

Example prompt_of_no_chunk :
  buildContext []
  = lit ("Based on the following information:\n\n"
         ++ "\nPlease answer the question: "
         ++ "What is machine learning and how does it relate to AI?").
Proof. reflexivity. Qed.

(** ** The model used for generation *)

Lemma firstLLM_split (before after : list Model.t) (model : Model.t) :
  (forall m, In m before -> Model.ModelType m <> "llm") ->
  Model.ModelType model = "llm" ->
  firstLLM (before ++ model :: after) = Some model.
Proof.
  unfold firstLLM. induction before as [| m before IH]; simpl; intros Hb Hm.
  - rewrite Hm. reflexivity.
  - destruct (Model.ModelType m =? "llm")%string eqn:E.
    + apply String.eqb_eq in E. elim (Hb m); auto.
    + apply IH; auto.
Qed.

Lemma firstLLM_inv (models : list Model.t) (model : Model.t) :
  firstLLM models = Some model ->
  exists before after,
    models = before ++ model :: after
    /\ (forall m, In m before -> Model.ModelType m <> "llm")
    /\ Model.ModelType model = "llm".
Proof.
  unfold firstLLM. induction models as [| m rest IH]; simpl; [discriminate | ].
  destruct (Model.ModelType m =? "llm")%string eqn:E.
  - intros [= ->]. apply String.eqb_eq in E.
    exists [], rest. repeat split; [ | exact E]. intros m [].
  - intros H. destruct (IH H) as (before & after & -> & Hb & Hm).
    apply String.eqb_neq in E.
    exists (m :: before), after. repeat split; [ | exact Hm].
    intros m' [<- | Hin]; auto.
Qed.

(** What a run does once the model list is in: the chat completion is
    requested exactly when the selection loop leaves a non-empty identifier,
    and then with that identifier. *)
Lemma after_models (c : course) (models : list Model.t) :
  admissible c ->
  In (ModelsR (Ok models)) (course_responses c) ->
  (selectLLM models "" = ""%string
   /\ course_outcome c = Some "no LLM model available for generation"%string
   /\ forall params, ~ In (Chat_Completions_New params) (course_calls c))
  \/ (selectLLM models "" <> ""%string
      /\ forall params, In (Chat_Completions_New params) (course_calls c) ->
           ChatCompletionNewParams.Model params = selectLLM models "").
Proof.
  intros Hc Hin.
  by_course c; simpl in Hin, Hc;
    repeat (destruct Hin as [Hin | Hin]; try discriminate Hin);
    try contradiction; injection Hin as ->.
  - left. repeat split; [exact Hc | ].
    intros params H. simpl in H.
    repeat (destruct H as [H | H]; try discriminate H). exact H.
  - right. split; [exact Hc | ]. intros params H. simpl in H.
    repeat (destruct H as [H | H]; try discriminate H); [ | contradiction].
    unfold chatCompletion in H. injection H as <-. reflexivity.
  - right. split; [exact Hc | ]. intros params H. simpl in H.
    repeat (destruct H as [H | H]; try discriminate H); [ | contradiction].
    unfold chatCompletion in H. injection H as <-. reflexivity.
Qed.

(** C4: when the chat completion is requested, its model is the identifier
    of the first entry, in the order of the list answered at step 5, whose
    type is llm: the list splits into entries of other types, that entry, and
    the rest. In particular, if the list starts with an entry of another type
    followed by an llm entry, the second entry is the one whose identifier is
    used. *)
Theorem first_llm_is_selected (svc : Service) (w : world svc)
    (models : list Model.t) (params : ChatCompletionNewParams.t) :
  In (ModelsR (Ok models)) (responses (trace svc runRAGDemo w)) ->
  In (Chat_Completions_New params) (calls (trace svc runRAGDemo w)) ->
  exists before model after,
    models = before ++ model :: after
    /\ (forall m, In m before -> Model.ModelType m <> "llm")
    /\ Model.ModelType model = "llm"
    /\ ChatCompletionNewParams.Model params = Model.Identifier model
    /\ (forall first second rest,
          models = first :: second :: rest ->
          Model.ModelType first <> "llm" -> Model.ModelType second = "llm" ->
          model = second).
Proof.
  destruct (run_as_course svc w) as (c & Hc & _ & Hcalls & Hresp & _).
  rewrite Hcalls, Hresp. clear Hcalls Hresp. intros Hms Hchat.
  destruct (after_models c models Hc Hms) as [(_ & _ & Hno) | (Hsel & Hmodel)].
  - elim (Hno params Hchat).
  - rewrite (Hmodel params Hchat). rewrite selectLLM_firstLLM in *.
    destruct (firstLLM models) as [model |] eqn:Hfirst; [ | congruence].
    destruct (firstLLM_inv models model Hfirst) as (before & after & Heq & Hb & Hm).
    exists before, model, after. repeat split; auto.
    intros first second rest -> H1 H2.
    pose proof (firstLLM_split [first] rest second) as Hsplit.
    change ([first] ++ second :: rest) with (first :: second :: rest) in Hsplit.
    rewrite Hsplit in Hfirst; [congruence | | exact H2].
    intros m [<- | []]. exact H1.
Qed.

Lemma first_llm_is_selected_witness :
  exists before model after,
    [embeddingModel; llamaModel] = before ++ model :: after
    /\ (forall m, In m before -> Model.ModelType m <> "llm")
    /\ Model.ModelType model = "llm"
    /\ ChatCompletionNewParams.Model
         (chatParams (buildContext (VectorStoreSearchResponse.Data sampleHits)) "llama3.2:3b")
       = Model.Identifier model
    /\ (forall first second rest,
          [embeddingModel; llamaModel] = first :: second :: rest ->
          Model.ModelType first <> "llm" -> Model.ModelType second = "llm" ->
          model = second).
Proof.
  apply (first_llm_is_selected (mock happyMock) tt).
  - found.
  - found.
Defined.

(** The example of the claim, on the loop itself. *)
Example second_entry_selected : selectLLM [embeddingModel; llamaModel] "" = "llama3.2:3b"%string.
Proof. reflexivity. Qed.

(** C5: if no entry of the model list answered at step 5 has type llm, the
    run returns the error "no LLM model available for generation" and never
    requests a chat completion. *)
Theorem no_llm_no_completion (svc : Service) (w : world svc) (models : list Model.t) :
  In (ModelsR (Ok models)) (responses (trace svc runRAGDemo w)) ->
  (forall m, In m models -> Model.ModelType m <> "llm") ->
  outcome svc runRAGDemo w = Some "no LLM model available for generation"%string
  /\ forall params, ~ In (Chat_Completions_New params) (calls (trace svc runRAGDemo w)).
Proof.
  destruct (run_as_course svc w) as (c & Hc & _ & Hcalls & Hresp & Hout).
  rewrite Hcalls, Hresp, Hout. clear Hcalls Hresp Hout. intros Hms Hnone.
  destruct (after_models c models Hc Hms) as [(_ & Herr & Hno) | (Hsel & _)].
  - auto.
  - rewrite selectLLM_firstLLM, (firstLLM_none models Hnone) in Hsel. congruence.
Qed.

Lemma no_llm_no_completion_witness :
  outcome (mock (withModels [embeddingModel] happyMock)) runRAGDemo tt
  = Some "no LLM model available for generation"%string
  /\ forall params,
       ~ In (Chat_Completions_New params)
           (calls (trace (mock (withModels [embeddingModel] happyMock)) runRAGDemo tt)).
Proof.
  apply (no_llm_no_completion (mock (withModels [embeddingModel] happyMock)) tt
           [embeddingModel]).
  - found.
  - intros m [<- | []]. vm_compute. discriminate.
Defined.

(** C9: if the first entry of type llm in the model list answered at step 5
    has the empty string as its identifier, the run returns the error
    "no LLM model available for generation" and never requests a chat
    completion, although the list has an entry of type llm. *)
Theorem unnamed_llm_counts_as_none (svc : Service) (w : world svc)
    (before after : list Model.t) (model : Model.t) :
  In (ModelsR (Ok (before ++ model :: after))) (responses (trace svc runRAGDemo w)) ->
  (forall m, In m before -> Model.ModelType m <> "llm") ->
  Model.ModelType model = "llm" ->
  Model.Identifier model = ""%string ->
  outcome svc runRAGDemo w = Some "no LLM model available for generation"%string
  /\ forall params, ~ In (Chat_Completions_New params) (calls (trace svc runRAGDemo w)).
Proof.
  destruct (run_as_course svc w) as (c & Hc & _ & Hcalls & Hresp & Hout).
  rewrite Hcalls, Hresp, Hout. clear Hcalls Hresp Hout. intros Hms Hb Hm Hid.
  destruct (after_models c _ Hc Hms) as [(_ & Herr & Hno) | (Hsel & _)].
  - auto.
  - rewrite selectLLM_firstLLM, (firstLLM_split before after model Hb Hm) in Hsel. congruence.
Qed.

Lemma unnamed_llm_counts_as_none_witness :
  outcome (mock (withModels [embeddingModel; unnamedLLM; llamaModel] happyMock)) runRAGDemo tt
  = Some "no LLM model available for generation"%string
  /\ forall params,
       ~ In (Chat_Completions_New params)
           (calls (trace (mock (withModels [embeddingModel; unnamedLLM; llamaModel] happyMock))
                     runRAGDemo tt)).
Proof.
  apply (unnamed_llm_counts_as_none
           (mock (withModels [embeddingModel; unnamedLLM; llamaModel] happyMock)) tt
           [embeddingModel] [llamaModel] unnamedLLM).
  - found.
  - intros m [<- | []]. vm_compute. discriminate.
  - reflexivity.
  - reflexivity.
Defined.

(** ** The answer line *)

Lemma no_answer_line_in_chunks (Data : list VectorStoreSearchResponseData.t) (i : Z) :
  filter isAnswerLine (prints (forRange printChunk i Data)) = [].
Proof.
  revert i. induction Data as [| d rest IH]; intros i; simpl; [reflexivity | apply IH].
Qed.

Lemma answer_line_of_display (response : ChatCompletionNewResponseUnion.t) :
  filter isAnswerLine (prints (displayAnswer response))
  = match firstChoice response with
    | Some choice =>
        if (assistantText choice =? "")%string then [] else [answerLine (assistantText choice)]
    | None => []
    end.
Proof.
  unfold displayAnswer, firstChoice, assistantText.
  destruct (OpenAIChatCompletion.Choices _) as [[| choice rest] |]; try reflexivity.
  destruct (_ =? "")%string; reflexivity.
Qed.

Lemma no_answer_line_in_steps :
  (forall r, filter isAnswerLine (console (step1 r)) = [])
  /\ (forall vs r, filter isAnswerLine (console (step2 vs r)) = [])
  /\ (forall vs f r, filter isAnswerLine (console (step3 vs f r)) = [])
  /\ (forall vs r, filter isAnswerLine (console (step4 vs r)) = [])
  /\ (forall sr r, filter isAnswerLine (console (step5 sr r)) = [])
  /\ (forall sr ms r, filter isAnswerLine (console (step6 sr ms r)) = []).
Proof.
  repeat split; intros; try reflexivity.
  unfold step5. cbn [console].
  rewrite console_app, console_Printed. cbn [filter console isAnswerLine].
  rewrite filter_app, no_answer_line_in_chunks. reflexivity.
Qed.

Lemma answer_lines_of_course (c : course) :
  filter isAnswerLine (console (course_trace c))
  = match c with
    | Finished _ _ _ _ _ resp => filter isAnswerLine (prints (displayAnswer resp))
    | _ => []
    end.
Proof.
  destruct no_answer_line_in_steps as (H1 & H2 & H3 & H4 & H5 & H6).
  by_course c; unfold course_trace, upto4, shown;
    rewrite ?console_app, ?filter_app, ?console_Printed, ?H1, ?H2, ?H3, ?H4, ?H5, ?H6;
    reflexivity.
Qed.

(** C6: in a run whose chat completion succeeds, the run returns no error,
    and the answer lines on the console are: the one line carrying the
    assistant text of the first choice, if there is a first choice and that
    text is not empty (an absent text reads as empty); none otherwise. So an
    answer line is printed exactly when the first choice has a non-empty
    assistant text. *)
Theorem answer_line_iff_text (svc : Service) (w : world svc)
    (response : ChatCompletionNewResponseUnion.t) :
  In (ChatR (Ok response)) (responses (trace svc runRAGDemo w)) ->
  outcome svc runRAGDemo w = None
  /\ filter isAnswerLine (console (trace svc runRAGDemo w))
     = match firstChoice response with
       | Some choice =>
           if (assistantText choice =? "")%string then []
           else [answerLine (assistantText choice)]
       | None => []
       end
  /\ (existsb isAnswerLine (console (trace svc runRAGDemo w)) = true
      <-> exists choice,
            firstChoice response = Some choice /\ assistantText choice <> ""%string).
Proof.
  destruct (run_as_course svc w) as (c & _ & Htr & _ & Hresp & Hout).
  rewrite Hresp, Hout, Htr. clear Hresp Hout Htr. intros Hin.
  assert (Hc : exists vs f a sr ms, c = Finished vs f a sr ms response).
  { by_course c; simpl in Hin;
      repeat (destruct Hin as [Hin | Hin]; try discriminate Hin); try contradiction.
    injection Hin as ->. eauto 6. }
  destruct Hc as (vs & f & a & sr & ms & ->).
  pose proof (answer_lines_of_course (Finished vs f a sr ms response)) as Hlines.
  cbn beta iota in Hlines. rewrite answer_line_of_display in Hlines.
  split; [reflexivity | split; [exact Hlines | ]].
  rewrite existsb_exists. split.
  - intros (o & Ho & Hline).
    assert (Hf : In o (filter isAnswerLine
                         (console (course_trace (Finished vs f a sr ms response))))).
    { apply filter_In. auto. }
    rewrite Hlines in Hf.
    destruct (firstChoice response) as [choice |]; [ | contradiction].
    exists choice. split; [reflexivity | ].
    destruct (assistantText choice =? "")%string eqn:E; [contradiction | ].
    now apply String.eqb_neq.
  - intros (choice & Hchoice & Htext).
    rewrite Hchoice in Hlines. apply String.eqb_neq in Htext. rewrite Htext in Hlines.
    exists (answerLine (assistantText choice)).
    apply filter_In. rewrite Hlines. left. reflexivity.
Qed.

Lemma answer_line_iff_text_witness :
  outcome (mock (withChat (completionWith "") happyMock)) runRAGDemo tt = None
  /\ filter isAnswerLine
       (console (trace (mock (withChat (completionWith "") happyMock)) runRAGDemo tt))
     = match firstChoice (completionWith "") with
       | Some choice =>
           if (assistantText choice =? "")%string then []
           else [answerLine (assistantText choice)]
       | None => []
       end
  /\ (existsb isAnswerLine
        (console (trace (mock (withChat (completionWith "") happyMock)) runRAGDemo tt)) = true
      <-> exists choice,
            firstChoice (completionWith "") = Some choice
            /\ assistantText choice <> ""%string).
Proof.
  apply (answer_line_iff_text (mock (withChat (completionWith "") happyMock)) tt
           (completionWith "")).
  found.
Defined.

(** With empty assistant text the console has no answer line and the run
    succeeds; with a text it has the one line. *)
Example empty_answer_prints_nothing :
  filter isAnswerLine
    (console (trace (mock (withChat (completionWith "") happyMock)) runRAGDemo tt)) = []
  /\ outcome (mock (withChat (completionWith "") happyMock)) runRAGDemo tt = None.
Proof. split; reflexivity. Qed.

Example answer_is_printed :
  filter isAnswerLine (console (trace (mock happyMock) runRAGDemo tt))
  = [answerLine "Machine learning is a subset of AI."].
Proof. reflexivity. Qed.

(** ** Between attaching and searching *)

(** C7: in a run whose attach call succeeds, the attach call is followed in
    the trace by console writes only (the four progress lines) and then by
    the search call on the same store: no other call on the service comes
    between the two. *)
Theorem search_right_after_attach (svc : Service) (w : world svc)
    (attached : VectorStoreFile.t) :
  In (VectorStoreFileR (Ok attached)) (responses (trace svc runRAGDemo w)) ->
  exists before vs f r after,
    trace svc runRAGDemo w
    = before
      ++ Called (attachFile vs f) (VectorStoreFileR (Ok attached))
      :: map Printed waiting
      ++ Called (searchStore vs) (SearchR r)
      :: after
    /\ calls before = [createStore; uploadFile]
    /\ calls (map Printed waiting) = [].
Proof.
  destruct (run_as_course svc w) as (c & _ & Htr & _ & Hresp & _).
  rewrite Hresp, Htr. clear Hresp Htr. intros Hin.
  by_course c; simpl in Hin;
    repeat (destruct Hin as [Hin | Hin]; try discriminate Hin); try contradiction;
    injection Hin as ->;
    exists (step1 (Ok vs) ++ step2 vs (Ok f) ++ firstn 2 (step3 vs f (Ok attached))), vs, f.
  - exists (Err e), []. repeat split.
  - exists (Ok sr), (step5 sr (Err e)). repeat split.
  - exists (Ok sr), (step5 sr (Ok ms)). repeat split.
  - exists (Ok sr), (step5 sr (Ok ms) ++ step6 sr ms (Err e)). repeat split.
  - exists (Ok sr), (step5 sr (Ok ms) ++ step6 sr ms (Ok resp) ++ shown resp). repeat split.
Qed.

Lemma search_right_after_attach_witness :
  exists before vs f r after,
    trace (mock happyMock) runRAGDemo tt
    = before
      ++ Called (attachFile vs f) (VectorStoreFileR (Ok sampleAttached))
      :: map Printed waiting
      ++ Called (searchStore vs) (SearchR r)
      :: after
    /\ calls before = [createStore; uploadFile]
    /\ calls (map Printed waiting) = [].
Proof.
  apply (search_right_after_attach (mock happyMock) tt sampleAttached).
  found.
Defined.

(** ** Fixed parameters *)

(** C8: in every run, each search request carries the maximum result count
    3 and each chat completion request the token ceiling 300. *)
Theorem fixed_limits (svc : Service) (w : world svc) :
  (forall vectorStoreID params,
     In (VectorStores_Search vectorStoreID params) (calls (trace svc runRAGDemo w)) ->
     VectorStoreSearchParams.MaxNumResults params = Some 3)
  /\ (forall params,
        In (Chat_Completions_New params) (calls (trace svc runRAGDemo w)) ->
        ChatCompletionNewParams.MaxTokens params = Some 300).
Proof.
  destruct (run_as_course svc w) as (c & _ & _ & Hcalls & _ & _).
  rewrite Hcalls. clear Hcalls.
  split; [intros id params Hin | intros params Hin];
    by_course c; simpl in Hin;
    repeat (destruct Hin as [Hin | Hin]; try discriminate Hin); try contradiction.
  all: first [ unfold searchStore in Hin | unfold chatCompletion in Hin ];
    injection Hin; intros; subst; reflexivity.
Qed.

Lemma fixed_limits_witness :
  VectorStoreSearchParams.MaxNumResults
    (VectorStoreSearchParams.mk (VectorStoreSearchParamsQueryUnion.mk (Some query)) (Some 3))
  = Some 3
  /\ ChatCompletionNewParams.MaxTokens
       (chatParams (buildContext (VectorStoreSearchResponse.Data sampleHits)) "llama3.2:3b")
     = Some 300.
Proof.
  destruct (fixed_limits (mock happyMock) tt) as [Hsearch Hchat].
  split.
  - apply (Hsearch "vs_123"%string). found.
  - apply Hchat. found.
Defined.

(** The search request of the sample run, in full. *)
Example search_request_of_sample_run :
  nth_error (calls (trace (mock happyMock) runRAGDemo tt)) 3
  = Some (VectorStores_Search "vs_123"
            (VectorStoreSearchParams.mk
               (VectorStoreSearchParamsQueryUnion.mk
                  (Some "What is machine learning and how does it relate to AI?"%string))
               (Some 3))).
Proof. reflexivity. Qed.

(** * Further properties of [main.go] *)

(** ** [main] around the pipeline *)

Lemma run_main (svc : Service) (w : world svc) :
  run svc main w
  = ( Printed banner :: trace svc runRAGDemo w
        ++ [Printed (closing (outcome svc runRAGDemo w))],
      tt,
      snd (run svc runRAGDemo w) ).
Proof.
  unfold main, trace, outcome. cbn [bind Println run].
  rewrite run_bind. destruct (run svc runRAGDemo w) as [[tr [err |]] w']; reflexivity.
Qed.

(** X1: a run of [main] is the banner, then the run of the pipeline, then one
    closing write: the failure report with the returned error, or the
    completion line if the pipeline returned no error. [main] makes no call
    of its own. *)
Theorem main_wraps_the_pipeline (svc : Service) (w : world svc) :
  trace svc main w
  = Printed banner :: trace svc runRAGDemo w
      ++ [Printed (closing (outcome svc runRAGDemo w))]
  /\ calls (trace svc main w) = calls (trace svc runRAGDemo w)
  /\ responses (trace svc main w) = responses (trace svc runRAGDemo w).
Proof.
  unfold trace at 1 3 5. rewrite run_main. cbn [fst].
  split; [reflexivity | ].
  cbn [calls responses]. rewrite calls_app, responses_app. cbn [calls responses].
  rewrite !app_nil_r. split; reflexivity.
Qed.

(** ** What the pipeline never does *)

(** X3: the calls of a run are always an initial stretch of the six steps,
    at least the first and at most all six, so no method is called twice
    (no retry) and none out of order; and no call is made after a failure:
    if the answer to the call at (zero-based) position [i] is a failure, the
    run made exactly [i + 1] calls (no cleanup call either). *)
Theorem calls_are_a_prefix (svc : Service) (w : world svc) :
  map method_of (calls (trace svc runRAGDemo w))
  = firstn (length (calls (trace svc runRAGDemo w))) pipeline
  /\ (1 <= length (calls (trace svc runRAGDemo w)) <= 6)%nat
  /\ NoDup (map method_of (calls (trace svc runRAGDemo w)))
  /\ (forall (i : nat) (r : response),
        nth_error (responses (trace svc runRAGDemo w)) i = Some r ->
        ~ succeeded r ->
        length (calls (trace svc runRAGDemo w)) = S i).
Proof.
  destruct (run_as_course svc w) as (c & _ & _ & -> & -> & _).
  split; [ | split; [ | split]].
  - by_course c; reflexivity.
  - by_course c; cbn; lia.
  - by_course c; cbn;
      repeat (constructor; [cbn; intuition discriminate | ]); constructor.
  - intros i r Hnth Hfail.
    by_course c;
      destruct i as [| [| [| [| [| [| i]]]]]];
      simpl in Hnth; try discriminate Hnth;
      try (destruct i; discriminate Hnth);
      injection Hnth as <-;
      first [reflexivity | elim Hfail; reflexivity].
Qed.

Lemma calls_are_a_prefix_witness :
  length (calls (trace (mock (failingAt 1 "unreachable" happyMock)) runRAGDemo tt)) = 1%nat.
Proof.
  apply (proj2 (proj2 (proj2
           (calls_are_a_prefix (mock (failingAt 1 "unreachable" happyMock)) tt)))
           0%nat (VectorStoreR (Err "unreachable"))).
  - reflexivity.
  - discriminate.
Defined.

(** X4: every call gets an answer, and only the last answer of a run can be
    a failure: all the answers before it are successes. *)
Theorem only_the_last_answer_fails (svc : Service) (w : world svc) :
  length (responses (trace svc runRAGDemo w)) = length (calls (trace svc runRAGDemo w))
  /\ exists front last,
       responses (trace svc runRAGDemo w) = front ++ [last]
       /\ Forall succeeded front.
Proof.
  destruct (run_as_course svc w) as (c & _ & _ & -> & -> & _).
  split; [by_course c; reflexivity | ].
  by_course c; cbn [course_responses].
  - exists [], (VectorStoreR (Err e)). split; [reflexivity | constructor].
  - exists [VectorStoreR (Ok vs)], (FileR (Err e)).
    split; [reflexivity | repeat constructor].
  - exists [VectorStoreR (Ok vs); FileR (Ok f)], (VectorStoreFileR (Err e)).
    split; [reflexivity | repeat constructor].
  - exists [VectorStoreR (Ok vs); FileR (Ok f); VectorStoreFileR (Ok a)], (SearchR (Err e)).
    split; [reflexivity | repeat constructor].
  - exists [VectorStoreR (Ok vs); FileR (Ok f); VectorStoreFileR (Ok a); SearchR (Ok sr)],
      (ModelsR (Err e)).
    split; [reflexivity | repeat constructor].
  - exists [VectorStoreR (Ok vs); FileR (Ok f); VectorStoreFileR (Ok a); SearchR (Ok sr)],
      (ModelsR (Ok ms)).
    split; [reflexivity | repeat constructor].
  - exists [VectorStoreR (Ok vs); FileR (Ok f); VectorStoreFileR (Ok a); SearchR (Ok sr);
            ModelsR (Ok ms)], (ChatR (Err e)).
    split; [reflexivity | repeat constructor].
  - exists [VectorStoreR (Ok vs); FileR (Ok f); VectorStoreFileR (Ok a); SearchR (Ok sr);
            ModelsR (Ok ms)], (ChatR (Ok resp)).
    split; [reflexivity | repeat constructor].
Qed.

(** ** Where a returned error comes from *)

(** X5: every error the pipeline returns has its cause in the run: either
    the last call, that of step [k], failed with [err] and the error is that
    step's prefix, a colon and [err]; or all five calls made succeeded, the
    selection loop found no usable model, and the error is the no-LLM one. *)
Theorem every_error_has_a_cause (svc : Service) (w : world svc) (msg : error) :
  outcome svc runRAGDemo w = Some msg ->
  (exists k r err,
      (1 <= k <= 6)%nat
      /\ length (calls (trace svc runRAGDemo w)) = k
      /\ nth_error (responses (trace svc runRAGDemo w)) (k - 1) = Some r
      /\ failure r = Some err
      /\ msg = (stepPrefix k ++ ": " ++ err)%string)
  \/ (msg = "no LLM model available for generation"%string
      /\ length (calls (trace svc runRAGDemo w)) = 5%nat
      /\ Forall succeeded (responses (trace svc runRAGDemo w))
      /\ exists models,
           nth_error (responses (trace svc runRAGDemo w)) 4 = Some (ModelsR (Ok models))
           /\ selectLLM models "" = ""%string).
Proof.
  destruct (run_as_course svc w) as (c & Hc & _ & -> & -> & ->).
  by_course c; cbn [course_outcome]; intros [= <-].
  - left. exists 1%nat, (VectorStoreR (Err e)), e. repeat split; lia.
  - left. exists 2%nat, (FileR (Err e)), e. repeat split; lia.
  - left. exists 3%nat, (VectorStoreFileR (Err e)), e. repeat split; lia.
  - left. exists 4%nat, (SearchR (Err e)), e. repeat split; lia.
  - left. exists 5%nat, (ModelsR (Err e)), e. repeat split; lia.
  - right. split; [reflexivity | split; [reflexivity | split]].
    + repeat constructor.
    + exists ms. split; [reflexivity | exact Hc].
  - left. exists 6%nat, (ChatR (Err e)), e. repeat split; lia.
Qed.

Lemma every_error_has_a_cause_witness :
  (exists k r err,
      (1 <= k <= 6)%nat
      /\ length (calls (trace (mock (failingAt 4 "timeout" happyMock)) runRAGDemo tt)) = k
      /\ nth_error (responses (trace (mock (failingAt 4 "timeout" happyMock)) runRAGDemo tt))
           (k - 1) = Some r
      /\ failure r = Some err
      /\ "error searching vector store: timeout"%string = (stepPrefix k ++ ": " ++ err)%string)
  \/ ("error searching vector store: timeout"%string
      = "no LLM model available for generation"%string
      /\ length (calls (trace (mock (failingAt 4 "timeout" happyMock)) runRAGDemo tt)) = 5%nat
      /\ Forall succeeded
           (responses (trace (mock (failingAt 4 "timeout" happyMock)) runRAGDemo tt))
      /\ exists models,
           nth_error (responses (trace (mock (failingAt 4 "timeout" happyMock)) runRAGDemo tt)) 4
           = Some (ModelsR (Ok models))
           /\ selectLLM models "" = ""%string).
Proof.
  apply (every_error_has_a_cause (mock (failingAt 4 "timeout" happyMock)) tt
           "error searching vector store: timeout").
  reflexivity.
Defined.

(** X6: the pipeline returns no error exactly when it made all six calls and
    every one of them succeeded. *)
Theorem success_iff_six_successes (svc : Service) (w : world svc) :
  outcome svc runRAGDemo w = None
  <-> length (calls (trace svc runRAGDemo w)) = 6%nat
      /\ Forall succeeded (responses (trace svc runRAGDemo w)).
Proof.
  destruct (run_as_course svc w) as (c & _ & _ & -> & -> & ->).
  by_course c; cbn; split; try discriminate; try (intros [H _]; discriminate H).
  - intros [_ H]. repeat match goal with
                        | H : Forall _ (_ :: _) |- _ => inversion_clear H
                        end.
    match goal with H : succeeded _ |- _ => discriminate H end.
  - intros _. split; [reflexivity | repeat constructor].
  - reflexivity.
Qed.

(** ** When the no-LLM error is returned *)

Lemma firstLLM_none_inv (models : list Model.t) :
  firstLLM models = None ->
  forall m, In m models -> Model.ModelType m <> "llm"%string.
Proof.
  unfold firstLLM. intros H m Hin. apply String.eqb_neq.
  exact (find_none _ _ H m Hin).
Qed.

(** X7: once the model list is in, the pipeline returns the no-LLM error
    exactly in two cases: no entry of the list has type llm, or the first
    entry of type llm has the empty identifier. In every other case it goes
    on to request the chat completion. *)
Theorem no_llm_error_iff (svc : Service) (w : world svc) (models : list Model.t) :
  In (ModelsR (Ok models)) (responses (trace svc runRAGDemo w)) ->
  (outcome svc runRAGDemo w = Some "no LLM model available for generation"%string
   <-> (forall m, In m models -> Model.ModelType m <> "llm"%string)
       \/ (exists before model after,
             models = before ++ model :: after
             /\ (forall m, In m before -> Model.ModelType m <> "llm"%string)
             /\ Model.ModelType model = "llm"%string
             /\ Model.Identifier model = ""%string))
  /\ (outcome svc runRAGDemo w <> Some "no LLM model available for generation"%string
      -> exists params, In (Chat_Completions_New params) (calls (trace svc runRAGDemo w))).
Proof.
  destruct (run_as_course svc w) as (c & Hc & _ & -> & -> & ->). intros Hin.
  assert (Hsel : selectLLM models "" = ""%string
                 <-> (forall m, In m models -> Model.ModelType m <> "llm"%string)
                     \/ (exists before model after,
                           models = before ++ model :: after
                           /\ (forall m, In m before -> Model.ModelType m <> "llm"%string)
                           /\ Model.ModelType model = "llm"%string
                           /\ Model.Identifier model = ""%string)).
  { rewrite selectLLM_firstLLM. split.
    - destruct (firstLLM models) as [model |] eqn:Hfirst.
      + intros Hid. right.
        destruct (firstLLM_inv models model Hfirst) as (before & after & Heq & Hb & Hm).
        exists before, model, after. auto.
      + intros _. left. apply firstLLM_none_inv. exact Hfirst.
    - intros [Hnone | (before & model & after & -> & Hb & Hm & Hid)].
      + rewrite (firstLLM_none models Hnone). reflexivity.
      + rewrite (firstLLM_split before after model Hb Hm). exact Hid. }
  by_course c; cbn [course_responses] in Hin; simpl in Hin;
    repeat (destruct Hin as [Hin | Hin]; try discriminate Hin); try contradiction;
    injection Hin as ->; cbn [course_outcome course_calls admissible] in *.
  - split; [ | intros H; elim H; reflexivity].
    split; [intros _; apply Hsel; exact Hc | reflexivity].
  - split.
    + split; [discriminate | ]. intros H. apply Hsel in H. contradiction.
    + intros _. exists (chatParams (buildContext (VectorStoreSearchResponse.Data sr))
                         (selectLLM models "")).
      unfold chatCompletion. simpl. auto 10.
  - split.
    + split; [discriminate | ]. intros H. apply Hsel in H. contradiction.
    + intros _. exists (chatParams (buildContext (VectorStoreSearchResponse.Data sr))
                         (selectLLM models "")).
      unfold chatCompletion. simpl. auto 10.
Qed.

Lemma no_llm_error_iff_witness :
  (outcome (mock happyMock) runRAGDemo tt = Some "no LLM model available for generation"%string
   <-> (forall m, In m [embeddingModel; llamaModel] -> Model.ModelType m <> "llm"%string)
       \/ (exists before model after,
             [embeddingModel; llamaModel] = before ++ model :: after
             /\ (forall m, In m before -> Model.ModelType m <> "llm"%string)
             /\ Model.ModelType model = "llm"%string
             /\ Model.Identifier model = ""%string))
  /\ (outcome (mock happyMock) runRAGDemo tt
      <> Some "no LLM model available for generation"%string
      -> exists params,
           In (Chat_Completions_New params) (calls (trace (mock happyMock) runRAGDemo tt))).
Proof.
  apply (no_llm_error_iff (mock happyMock) tt [embeddingModel; llamaModel]).
  found.
Defined.

(** ** Identifiers handed from step to step, in every run *)

(** X8: in every run, also one that fails later, an attach call carries the
    store id answered by the first call and the file id answered by the
    second, and a search call carries the store id answered by the first. *)
Theorem ids_are_the_answered_ones (svc : Service) (w : world svc) :
  (forall vectorStoreID params,
     In (VectorStores_Files_New vectorStoreID params) (calls (trace svc runRAGDemo w)) ->
     exists vectorStore file,
       nth_error (responses (trace svc runRAGDemo w)) 0 = Some (VectorStoreR (Ok vectorStore))
       /\ nth_error (responses (trace svc runRAGDemo w)) 1 = Some (FileR (Ok file))
       /\ vectorStoreID = VectorStore.ID vectorStore
       /\ VectorStoreFileNewParams.FileID params = File.ID file)
  /\ (forall vectorStoreID params,
        In (VectorStores_Search vectorStoreID params) (calls (trace svc runRAGDemo w)) ->
        exists vectorStore,
          nth_error (responses (trace svc runRAGDemo w)) 0 = Some (VectorStoreR (Ok vectorStore))
          /\ vectorStoreID = VectorStore.ID vectorStore).
Proof.
  destruct (run_as_course svc w) as (c & _ & _ & -> & -> & _).
  split; intros id params Hin;
    by_course c; simpl in Hin;
    repeat (destruct Hin as [Hin | Hin]; try discriminate Hin); try contradiction.
  all: first [ unfold attachFile in Hin | unfold searchStore in Hin ];
    injection Hin; intros; subst.
  all: first [ exists vs, f; repeat split | exists vs; repeat split ].
Qed.

Lemma ids_are_the_answered_ones_witness :
  exists vectorStore file,
    nth_error (responses (trace (mock (failingAt 4 "timeout" happyMock)) runRAGDemo tt)) 0
    = Some (VectorStoreR (Ok vectorStore))
    /\ nth_error (responses (trace (mock (failingAt 4 "timeout" happyMock)) runRAGDemo tt)) 1
       = Some (FileR (Ok file))
    /\ "vs_123"%string = VectorStore.ID vectorStore
    /\ VectorStoreFileNewParams.FileID (VectorStoreFileNewParams.mk "file_456")
       = File.ID file.
Proof.
  apply (proj1 (ids_are_the_answered_ones (mock (failingAt 4 "timeout" happyMock)) tt)).
  found.
Defined.

(** ** The prompt reads contents only *)

Lemma numberedLines_contents (d1 d2 : list VectorStoreSearchResponseData.t) (i : nat) :
  map VectorStoreSearchResponseData.Content d1 = map VectorStoreSearchResponseData.Content d2 ->
  numberedLines i d1 = numberedLines i d2.
Proof.
  revert d2 i. induction d1 as [| r1 d1 IH]; intros [| r2 d2] i; simpl; try discriminate.
  - reflexivity.
  - intros [= Hc Hrest]. unfold numberedLine. rewrite Hc, (IH d2 (S i) Hrest). reflexivity.
Qed.

(** X10: the prompt depends on the contents of the search results only: two
    result lists with the same contents in the same order give the same
    prompt, whatever their scores. *)
Theorem prompt_ignores_scores (d1 d2 : list VectorStoreSearchResponseData.t) :
  map VectorStoreSearchResponseData.Content d1 = map VectorStoreSearchResponseData.Content d2 ->
  buildContext d1 = buildContext d2.
Proof.
  intros H. rewrite !buildContext_lines, (numberedLines_contents d1 d2 0 H). reflexivity.
Qed.

Lemma prompt_ignores_scores_witness :
  buildContext (VectorStoreSearchResponse.Data sampleHits)
  = buildContext (VectorStoreSearchResponse.Data rescoredHits).
Proof.
  apply (prompt_ignores_scores (VectorStoreSearchResponse.Data sampleHits)
           (VectorStoreSearchResponse.Data rescoredHits)).
  reflexivity.
Defined.

(** ** The console *)

Lemma prints_chunks (Data : list VectorStoreSearchResponseData.t) (i : nat) :
  prints (forRange printChunk (Z.of_nat i) Data)
  = concat (map (fun p => chunkLines (fst p) (snd p)) (combine (seq i (length Data)) Data)).
Proof.
  revert i. induction Data as [| result rest IH]; intros i; simpl.
  - reflexivity.
  - replace (Z.of_nat i + 1) with (Z.of_nat (S i)) by lia. rewrite IH.
    replace (Z.of_nat (S i)) with (Z.of_nat i + 1) by lia. reflexivity.
Qed.

Lemma console_step5 (sr : VectorStoreSearchResponse.t) (r : result (list Model.t)) :
  console (step5 sr r)
  = foundLine (length (VectorStoreSearchResponse.Data sr))
    :: concat (map (fun p => chunkLines (fst p) (snd p))
                 (combine (seq 0 (length (VectorStoreSearchResponse.Data sr)))
                    (VectorStoreSearchResponse.Data sr)))
    ++ [fmt.Println (stepHeader 5)].
Proof.
  unfold step5. cbn [console]. rewrite console_app, console_Printed.
  change 0 with (Z.of_nat 0). rewrite prints_chunks. reflexivity.
Qed.

(** X9: after a successful search with [N] results the console shows the
    count [N], then for each result in the returned order its three lines
    (the number counted from 1, the content, the score), and then the header
    of step 5: three writes per result and nothing between them. *)
Theorem chunks_on_the_console (svc : Service) (w : world svc)
    (searchResults : VectorStoreSearchResponse.t) :
  In (SearchR (Ok searchResults)) (responses (trace svc runRAGDemo w)) ->
  exists before after,
    console (trace svc runRAGDemo w)
    = before
      ++ foundLine (length (VectorStoreSearchResponse.Data searchResults))
      :: concat (map (fun p => chunkLines (fst p) (snd p))
                   (combine (seq 0 (length (VectorStoreSearchResponse.Data searchResults)))
                      (VectorStoreSearchResponse.Data searchResults)))
      ++ fmt.Println (stepHeader 5) :: after.
Proof.
  destruct (run_as_course svc w) as (c & _ & -> & _ & -> & _). intros Hin.
  by_course c; simpl in Hin;
    repeat (destruct Hin as [Hin | Hin]; try discriminate Hin); try contradiction;
    injection Hin as ->; unfold course_trace;
    exists (console (upto4 vs f a (Ok searchResults))).
  - exists []. rewrite console_app, console_step5. reflexivity.
  - exists []. rewrite console_app, console_step5. reflexivity.
  - exists (console (step6 searchResults ms (Err e))).
    rewrite !console_app, console_step5. cbn [app]. rewrite <- !app_assoc. reflexivity.
  - exists (console (step6 searchResults ms (Ok resp) ++ shown resp)).
    rewrite !console_app, console_step5. cbn [app]. rewrite <- !app_assoc. reflexivity.
Qed.

Lemma chunks_on_the_console_witness :
  exists before after,
    console (trace (mock happyMock) runRAGDemo tt)
    = before
      ++ foundLine (length (VectorStoreSearchResponse.Data sampleHits))
      :: concat (map (fun p => chunkLines (fst p) (snd p))
                   (combine (seq 0 (length (VectorStoreSearchResponse.Data sampleHits)))
                      (VectorStoreSearchResponse.Data sampleHits)))
      ++ fmt.Println (stepHeader 5) :: after.
Proof.
  apply (chunks_on_the_console (mock happyMock) tt sampleHits).
  found.
Defined.

Lemma printsLine_In (s : string) (os : list fmt.output) :
  In (fmt.Println s) os <-> existsb (printsLine s) os = true.
Proof.
  rewrite existsb_exists. split.
  - intros H. exists (fmt.Println s). split; [exact H | apply String.eqb_refl].
  - intros ([t | format args] & Hin & Heq); simpl in Heq; [ | discriminate].
    apply String.eqb_eq in Heq. subst. exact Hin.
Qed.

Lemma no_line_in_chunks (s : string) (Data : list VectorStoreSearchResponseData.t) (i : Z) :
  existsb (printsLine s) (prints (forRange printChunk i Data)) = false.
Proof.
  revert i. induction Data as [| d rest IH]; intros i; simpl; [reflexivity | apply IH].
Qed.

Lemma no_line_in_answer (s : string) (response : ChatCompletionNewResponseUnion.t) :
  existsb (printsLine s) (prints (displayAnswer response)) = false.
Proof.
  unfold displayAnswer.
  destruct (OpenAIChatCompletion.Choices _) as [[| choice rest] |]; try reflexivity.
  destruct (_ =? "")%string; reflexivity.
Qed.

Ltac lines :=
  project; rewrite ?existsb_app; cbn [existsb];
  rewrite ?existsb_app, ?no_line_in_chunks, ?no_line_in_answer; vm_compute; reflexivity.

Lemma header_in_course (c : course) (k : nat) :
  (1 <= k <= 5)%nat ->
  existsb (printsLine (stepHeader k)) (console (course_trace c))
  = (k <=? length (course_calls c))%nat.
Proof.
  intros Hk.
  destruct k as [| [| [| [| [| [| k]]]]]]; try lia; by_course c; lines.
Qed.

(** X11: the step headers on the console track the progress of the run: for
    [k] from 1 to 5 the header of step [k] is written exactly when the run
    gets as far as making the call of step [k]. *)
Theorem header_iff_step_reached (svc : Service) (w : world svc) (k : nat) :
  (1 <= k <= 5)%nat ->
  In (fmt.Println (stepHeader k)) (console (trace svc runRAGDemo w))
  <-> (k <= length (calls (trace svc runRAGDemo w)))%nat.
Proof.
  intros Hk. destruct (run_as_course svc w) as (c & _ & -> & _ & _ & _).
  rewrite calls_course, printsLine_In, (header_in_course c k Hk).
  apply Nat.leb_le.
Qed.

Lemma header_iff_step_reached_witness :
  In (fmt.Println (stepHeader 3))
    (console (trace (mock (failingAt 3 "connection refused" happyMock)) runRAGDemo tt))
  <-> (3 <= length (calls (trace (mock (failingAt 3 "connection refused" happyMock))
                              runRAGDemo tt)))%nat.
Proof.
  apply (header_iff_step_reached (mock (failingAt 3 "connection refused" happyMock)) tt 3%nat).
  lia.
Defined.

(** ** What [main] reports *)

Lemma complete_not_in_course (c : course) :
  existsb (printsLine (lit "\n=== Demo Complete! ===")) (console (course_trace c)) = false.
Proof. by_course c; lines. Qed.

(** X2: [main] writes the completion line exactly when the pipeline made all
    six calls and every one of them succeeded. *)
Theorem complete_iff_six_successes (svc : Service) (w : world svc) :
  In completeLine (console (trace svc main w))
  <-> length (calls (trace svc main w)) = 6%nat
      /\ Forall succeeded (responses (trace svc main w)).
Proof.
  unfold trace at 1 2 3. rewrite run_main. cbn [fst].
  cbn [calls responses console].
  rewrite calls_app, responses_app, console_app. cbn [calls responses console].
  rewrite !app_nil_r.
  destruct (run_as_course svc w) as (c & _ & -> & _ & _ & ->).
  rewrite calls_course, responses_course.
  unfold completeLine at 1. rewrite printsLine_In.
  cbn [existsb]. rewrite existsb_app, complete_not_in_course.
  by_course c; cbn; split; try discriminate; try (intros [H _]; discriminate H).
  - intros [_ H]. repeat match goal with
                        | H : Forall _ (_ :: _) |- _ => inversion_clear H
                        end.
    match goal with H : succeeded _ |- _ => discriminate H end.
  - intros _. split; [reflexivity | repeat constructor].
  - reflexivity.
Qed.

Lemma complete_iff_six_successes_witness :
  In completeLine (console (trace (mock happyMock) main tt))
  <-> length (calls (trace (mock happyMock) main tt)) = 6%nat
      /\ Forall succeeded (responses (trace (mock happyMock) main tt)).
Proof.
  apply (complete_iff_six_successes (mock happyMock) tt).
Defined.

Lemma failed_step_outcome (c : course) (k : nat) (r : response) (err : error) :
  (1 <= k <= 6)%nat ->
  nth_error (course_responses c) (k - 1) = Some r ->
  failure r = Some err ->
  course_outcome c = Some (stepPrefix k ++ ": " ++ err)%string.
Proof.
  intros Hk Hnth Hfail.
  by_course c;
    destruct k as [| [| [| [| [| [| [| k]]]]]]]; try lia;
    simpl in Hnth; try discriminate Hnth;
    injection Hnth as <-; simpl in Hfail; try discriminate Hfail;
    injection Hfail as <-; reflexivity.
Qed.

(** X13: if the call of step [k] fails with error [err], the last thing
    [main] writes is the failure report carrying the step's prefix, a colon
    and [err], and the completion line is not written. *)
Theorem main_reports_the_failed_step (svc : Service) (w : world svc)
    (k : nat) (r : response) (err : error) :
  (1 <= k <= 6)%nat ->
  nth_error (responses (trace svc main w)) (k - 1) = Some r ->
  failure r = Some err ->
  last (console (trace svc main w)) banner
  = fmt.Printf (lit "RAG Demo failed: %v\n") [fmt.Error (stepPrefix k ++ ": " ++ err)%string]
  /\ ~ In completeLine (console (trace svc main w)).
Proof.
  unfold trace at 1 2 3. rewrite run_main. cbn [fst].
  cbn [responses console]. rewrite responses_app, console_app. cbn [responses console].
  rewrite app_nil_r.
  destruct (run_as_course svc w) as (c & _ & -> & _ & _ & ->).
  rewrite responses_course. intros Hk Hnth Hfail.
  rewrite (failed_step_outcome c k r err Hk Hnth Hfail). cbn [closing].
  split.
  - rewrite app_comm_cons.
    rewrite last_last. reflexivity.
  - unfold completeLine. rewrite printsLine_In. cbn [existsb].
    rewrite existsb_app, complete_not_in_course. cbn. discriminate.
Qed.

Lemma main_reports_the_failed_step_witness :
  last (console (trace (mock (failingAt 2 "disk full" happyMock)) main tt)) banner
  = fmt.Printf (lit "RAG Demo failed: %v\n") [fmt.Error "error uploading file: disk full"]
  /\ ~ In completeLine (console (trace (mock (failingAt 2 "disk full" happyMock)) main tt)).
Proof.
  apply (main_reports_the_failed_step (mock (failingAt 2 "disk full" happyMock)) tt
           2%nat (FileR (Err "disk full")) "disk full").
  - lia.
  - reflexivity.
  - reflexivity.
Defined.

(** ** One question for retrieval and generation *)

(** X12: the question sent to the search is the question put to the model:
    in a run that makes both calls, the search request's query is a string
    with which the user message of the chat completion ends. *)
Theorem one_question_for_both (svc : Service) (w : world svc)
    (vectorStoreID : string) (search : VectorStoreSearchParams.t)
    (chat : ChatCompletionNewParams.t) :
  In (VectorStores_Search vectorStoreID search) (calls (trace svc runRAGDemo w)) ->
  In (Chat_Completions_New chat) (calls (trace svc runRAGDemo w)) ->
  exists question context system,
    VectorStoreSearchParams.Query search
    = VectorStoreSearchParamsQueryUnion.mk (Some question)
    /\ ChatCompletionNewParams.Messages chat
       = [ ChatCompletionNewParamsMessageUnion.OfSystem system;
           ChatCompletionNewParamsMessageUnion.OfUser
             (ChatCompletionNewParamsMessageUnion.mkContent
                (Some (context ++ question)%string)) ].
Proof.
  destruct (run_as_course svc w) as (c & _ & _ & -> & _ & _). intros Hs Hc.
  assert (Hq : forall sr,
             buildContext (VectorStoreSearchResponse.Data sr)
             = ((lit "Based on the following information:\n\n"
                 ++ join (numberedLines 0 (VectorStoreSearchResponse.Data sr))
                 ++ lit "\nPlease answer the question: ") ++ query)%string).
  { intros sr. rewrite buildContext_lines, !append_assoc. reflexivity. }
  by_course c; simpl in Hs, Hc;
    repeat (destruct Hc as [Hc | Hc]; try discriminate Hc); try contradiction;
    repeat (destruct Hs as [Hs | Hs]; try discriminate Hs); try contradiction;
    unfold searchStore in Hs; injection Hs; intros; subst;
    unfold chatCompletion in Hc; injection Hc as <-;
    exists query; eexists; eexists;
    (split; [reflexivity | ]);
    unfold chatParams; cbn [ChatCompletionNewParams.Messages];
    unfold strings.Builder.String, llamastackclient.String; rewrite Hq; reflexivity.
Qed.

Lemma one_question_for_both_witness :
  exists question context system,
    VectorStoreSearchParams.Query
      (VectorStoreSearchParams.mk (VectorStoreSearchParamsQueryUnion.mk (Some query)) (Some 3))
    = VectorStoreSearchParamsQueryUnion.mk (Some question)
    /\ ChatCompletionNewParams.Messages
         (chatParams (buildContext (VectorStoreSearchResponse.Data sampleHits)) "llama3.2:3b")
       = [ ChatCompletionNewParamsMessageUnion.OfSystem system;
           ChatCompletionNewParamsMessageUnion.OfUser
             (ChatCompletionNewParamsMessageUnion.mkContent
                (Some (context ++ question)%string)) ].
Proof.
  apply (one_question_for_both (mock happyMock) tt "vs_123").
  - found.
  - found.
Defined.
